(** * md_katex: the preprocessor of [md_katex/extension.py]

    A shallow embedding of the delimiter scanner and of the block state
    machine of the extension, with the properties of its specification.

    Python's [str] is a sequence of Unicode code points: a character is its
    code point, a string a list of them.  Offsets are Python integers ([Z]),
    since the scanner computes [start - 1] and indexes with it. *)

From Stdlib Require Import List ZArith NArith Lia Bool String Ascii.
Import ListNotations.
Local Open Scope Z_scope.

(** ** Characters and strings *)

Definition char := N.
Definition str := list char.

Definition chr (a : ascii) : char := N_of_ascii a.
Definition lit (s : string) : str := map N_of_ascii (list_ascii_of_string s).

Definition BACKSLASH : char := 92%N.
Definition BACKTICK : char := 96%N.
Definition TILDE : char := 126%N.
Definition DOLLAR : char := 36%N.
Definition QUOTE : char := 34%N.
Definition NEWLINE : char := 10%N.

Fixpoint str_eqb (a b : str) : bool :=
  match a, b with
  | [], [] => true
  | x :: a', y :: b' => N.eqb x y && str_eqb a' b'
  | _, _ => false
  end.

(** ** The Python primitives the module relies on *)

Module Py.

Definition len {A} (s : list A) : Z := Z.of_nat (List.length s).

(** [str.isspace] of one character, which is also the class [\s] of [re]
    on [str] patterns. *)
Definition isspace (c : char) : bool :=
  ((9 <=? c) && (c <=? 13) || (28 <=? c) && (c <=? 32)
   || (c =? 133) || (c =? 160) || (c =? 5760)
   || (8192 <=? c) && (c <=? 8202)
   || (c =? 8232) || (c =? 8233) || (c =? 8239) || (c =? 8287)
   || (c =? 12288))%N.

(** [s[i]]: a negative index counts from the end, anything outside
    raises IndexError ([None]). *)
Definition getitem {A} (s : list A) (i : Z) : option A :=
  let j := if i <? 0 then i + len s else i in
  if (j <? 0) || (len s <=? j) then None else nth_error s (Z.to_nat j).

(** The bound of a slice: negative bounds count from the end, then the
    bound is clipped to [0, len s]. *)
Definition bound {A} (s : list A) (i : Z) : Z :=
  let j := if i <? 0 then i + len s else i in
  Z.min (Z.max j 0) (len s).

(** [s[lo:hi]], [s[lo:]] and [s[:hi]]. *)
Definition slice {A} (s : list A) (lo hi : Z) : list A :=
  let a := bound s lo in
  let b := bound s hi in
  firstn (Z.to_nat (b - a)) (skipn (Z.to_nat a) s).
Definition slice_from {A} (s : list A) (lo : Z) : list A :=
  skipn (Z.to_nat (bound s lo)) s.
Definition slice_to {A} (s : list A) (hi : Z) : list A :=
  firstn (Z.to_nat (bound s hi)) s.

Fixpoint startswith (s sub : str) : bool :=
  match sub, s with
  | [], _ => true
  | x :: sub', y :: s' => N.eqb x y && startswith s' sub'
  | _ :: _, [] => false
  end.

(** Lowest offset at which [sub] occurs in [s], [s] being the part of the
    string that starts at offset [i]. *)
Fixpoint find_at (sub s : str) (i : Z) : option Z :=
  if startswith s sub then Some i
  else match s with
       | [] => None
       | _ :: s' => find_at sub s' (i + 1)
       end.

(** [s.index(sub, start)]: [None] is ValueError. *)
Definition index (s sub : str) (start : Z) : option Z :=
  let st := if start <? 0 then Z.max (start + len s) 0 else start in
  if len s <? st then None else find_at sub (skipn (Z.to_nat st) s) st.

(** [sub in s]. *)
Definition contains (sub s : str) : bool :=
  match find_at sub s 0 with Some _ => true | None => false end.

Fixpoint lstrip (s : str) : str :=
  match s with
  | c :: s' => if isspace c then lstrip s' else s
  | [] => []
  end.

Definition rstrip (s : str) : str := rev (lstrip (rev s)).

(** [sep.join(l)]. *)
Fixpoint join (sep : str) (l : list str) : str :=
  match l with
  | [] => []
  | [x] => x
  | x :: l' => x ++ sep ++ join sep l'
  end.

(** [pattern.search(s, pos)] for a pattern that is one literal token: the
    offsets of the match.  [pos] is clipped to [0, len s]. *)
Definition search_literal (tok s : str) (pos : Z) : option (Z * Z) :=
  let p := Z.min (Z.max pos 0) (len s) in
  match find_at tok (skipn (Z.to_nat p) s) p with
  | Some i => Some (i, i + len tok)
  | None => None
  end.

End Py.

(** ** Module constants: patterns and the delimiter table *)

(** The leading whitespace of a line (group 1 of the fence patterns, the
    greedy repetition of [\s]) and what follows it. *)
Fixpoint span_space (s : str) : str * str :=
  match s with
  | c :: s' =>
      if Py.isspace c then let (w, r) := span_space s' in (c :: w, r)
      else ([], s)
  | [] => ([], [])
  end.

(** The longest run of [c] at the head of [s], and what follows it. *)
Fixpoint span_char (c : char) (s : str) : str * str :=
  match s with
  | d :: s' =>
      if N.eqb d c then let (w, r) := span_char c s' in (d :: w, r)
      else ([], s)
  | [] => ([], [])
  end.

(** The group [(`{3,}|~{3,})] at the head of [s]: the alternatives are
    tried in order and each repetition is greedy. *)
Definition fence_token (s : str) : option (str * str) :=
  let (bt, r1) := span_char BACKTICK s in
  if (3 <=? List.length bt)%nat then Some (bt, r1)
  else
    let (tl, r2) := span_char TILDE s in
    if (3 <=? List.length tl)%nat then Some (tl, r2) else None.

(** [CODE_FENCE_RE.match(line)]: groups 1 and 2, and the text after the
    match. *)
Definition CODE_FENCE_RE (line : str) : option (str * str * str) :=
  let (ws, r) := span_space line in
  match fence_token r with
  | Some (tok, rest) => Some (ws, tok, rest)
  | None => None
  end.

(** [CODE_FENCE_MATH_START_RE.match(line)]: groups 1 and 2.  The token
    [math] has to follow the run; a shorter run cannot be followed by it,
    so backtracking into the repetition finds nothing more. *)
Definition CODE_FENCE_MATH_START_RE (line : str) : option (str * str) :=
  match CODE_FENCE_RE line with
  | Some (ws, tok, rest) =>
      if Py.startswith rest (lit "math") then Some (ws, tok) else None
  | None => None
  end.

(** [CODE_SPAN_DELIM_RE.search(line, pos)]: start, end and text of the
    first run of one or two backticks at or after [pos]. *)
Definition CODE_SPAN_DELIM_RE (line : str) (pos : Z) : option (Z * Z * str) :=
  match Py.search_literal [BACKTICK] line pos with
  | Some (i, _) =>
      match Py.getitem line (i + 1) with
      | Some c =>
          if N.eqb c BACKTICK then Some (i, i + 2, [BACKTICK; BACKTICK])
          else Some (i, i + 1, [BACKTICK])
      | None => Some (i, i + 1, [BACKTICK])
      end
  | None => None
  end.

Definition INLINE_OPEN : str := lit "\(".
Definition BLOCK_OPEN : str := lit "\[".

(** [INLINE_MATH_START_DELIM_RE.search(line, pos)]. *)
Definition INLINE_MATH_START_DELIM_RE (line : str) (pos : Z) : option (Z * Z) :=
  Py.search_literal INLINE_OPEN line pos.

(** [BLOCK_MATH_START_DELIM_RE.match(line)]: the token at offset 0. *)
Definition BLOCK_MATH_START_DELIM_RE (line : str) : option (Z * Z) :=
  if Py.startswith line BLOCK_OPEN then Some (0, Py.len BLOCK_OPEN) else None.

Definition DELIM_START_END_MAP : list (str * str) :=
  [ (lit "\(", lit "\)");
    (lit "\[", lit "\]");
    (lit "$`", lit "`$");
    (lit "$``", lit "``$");
    (lit "$", lit "$");
    (lit "$$", lit "$$");
    (lit "\f$", lit "$\f");
    (lit "\f[", lit "]\f") ].

(** [d[k]] on the table; [None] is KeyError. *)
Fixpoint dict_get (d : list (str * str)) (k : str) : option str :=
  match d with
  | [] => None
  | (k', v) :: d' => if str_eqb k' k then Some v else dict_get d' k
  end.

(** ** The escaper *)

(** The class [[(){}\[\]\*\!`+\-_#]] of ESCAPE_BACKSLASHES_RE. *)
Definition escapable (c : char) : bool :=
  existsb (N.eqb c) (lit "(){}[]*!`+-_#").

(** [ESCAPE_BACKSLASHES_RE.sub(r"\\\\\2", text)]: matches are taken left
    to right and do not overlap; each one is a backslash and a character of
    the class, replaced by two backslashes and that character. *)
Fixpoint escape_backslashes (text : str) : str :=
  match text with
  | [] => []
  | c :: rest =>
      if N.eqb c BACKSLASH then
        match rest with
        | d :: rest' =>
            if escapable d
            then BACKSLASH :: BACKSLASH :: d :: escape_backslashes rest'
            else c :: escape_backslashes rest
        | [] => [c]
        end
      else c :: escape_backslashes rest
  end.

(** ** Results of a call: a value, an exception, or no more fuel *)

Inductive exn := IndexError | KeyError.

Inductive outcome (A : Type) : Type :=
| Done (a : A)
| Raised (e : exn)
| OutOfFuel.
Arguments Done {A} a.
Arguments Raised {A} e.
Arguments OutOfFuel {A}.

Definition bind {A B} (c : outcome A) (k : A -> outcome B) : outcome B :=
  match c with
  | Done a => k a
  | Raised e => Raised e
  | OutOfFuel => OutOfFuel
  end.

Notation "x <- c ;; k" := (bind c (fun x => k))
  (at level 61, c at next level, right associativity).

(** The next value of a generator followed by the rest of its run. *)
Definition yield {A} (x : A) (rest : outcome (list A)) : outcome (list A) :=
  l <- rest ;; Done (x :: l).

(** ** The inline scanner *)

Record InlineMathItem := mkItem {
  start : Z;
  end_ : Z;
  inline_math : str
}.

(** The loop of lines 87-103: no code span delimiter is left after
    [math_pos].  The text of a match of a literal pattern is the literal. *)
Fixpoint scan_after (fuel : nat) (line : str) (math_pos : Z)
  : outcome (list InlineMathItem) :=
  match fuel with
  | O => OutOfFuel
  | S fuel' =>
      match INLINE_MATH_START_DELIM_RE line math_pos with
      | None => Done []
      | Some (m_start, m_end) =>
          let math_pos := m_end in
          let math_start := m_start in
          let math_delim := INLINE_OPEN in
          match dict_get DELIM_START_END_MAP math_delim with
          | None => Raised KeyError
          | Some close =>
              match Py.index line close math_pos with
              | None => scan_after fuel' line (math_start + Py.len math_delim)
              | Some math_end =>
                  let inline_math :=
                    Py.slice line (math_start + Py.len math_delim) math_end in
                  let math_pos := math_end + Py.len math_delim in
                  yield (mkItem math_start math_pos inline_math)
                        (scan_after fuel' line math_pos)
              end
          end
      end
  end.

(** The loop of lines 108-125: a code span delimiter starts at
    [search_end_pos]. *)
Fixpoint scan_before (fuel : nat) (line : str) (search_end_pos math_pos : Z)
  : outcome (list InlineMathItem) :=
  match fuel with
  | O => OutOfFuel
  | S fuel' =>
      if math_pos <=? search_end_pos then
        match INLINE_MATH_START_DELIM_RE line math_pos with
        | None => Done []
        | Some (m_start, m_end) =>
            let math_pos := m_end in
            if math_pos >? search_end_pos then Done []
            else
              let math_start := m_start in
              let math_delim := INLINE_OPEN in
              match dict_get DELIM_START_END_MAP math_delim with
              | None => Raised KeyError
              | Some close =>
                  match Py.index line close math_pos with
                  | None =>
                      scan_before fuel' line search_end_pos
                                  (math_start + Py.len math_delim)
                  | Some math_end =>
                      let inline_math :=
                        Py.slice line (math_start + Py.len math_delim)
                                 math_end in
                      let math_pos := math_end + Py.len math_delim in
                      yield (mkItem math_start math_pos inline_math)
                            (scan_before fuel' line search_end_pos math_pos)
                  end
              end
        end
      else Done []
  end.

(** The outer loop of [iter_inline_katex], from the cursor [pos]. *)
Fixpoint scan_line (fuel : nat) (line : str) (pos : Z)
  : outcome (list InlineMathItem) :=
  match fuel with
  | O => OutOfFuel
  | S fuel' =>
      match CODE_SPAN_DELIM_RE line pos with
      | None => scan_after (S (List.length line)) line pos
      | Some (c_start, c_end, delim) =>
          before <- scan_before (S (List.length line)) line c_start pos ;;
          rest <-
            match Py.index line delim (c_start + Py.len delim) with
            | None => scan_line fuel' line (c_start + Py.len delim)
            | Some i =>
                let end' := i + (Py.len delim - 1) in
                match Py.getitem line (c_start - 1) with
                | None => Raised IndexError
                | Some before_c =>
                    if N.eqb before_c DOLLAR then
                      match Py.getitem line (end' + 1) with
                      | None => Raised IndexError
                      | Some after_c =>
                          if N.eqb after_c DOLLAR then
                            let inline_math :=
                              Py.slice line (c_start + 1)
                                       (end' - Py.len delim + 1) in
                            yield (mkItem (c_start - 1) (end' + 2) inline_math)
                                  (scan_line fuel' line (end' + Py.len delim))
                          else scan_line fuel' line end'
                      end
                    else scan_line fuel' line end'
                end
            end ;;
          Done (before ++ rest)
      end
  end.

(** [list(iter_inline_katex(line))]. *)
Definition iter_inline_katex (line : str) : outcome (list InlineMathItem) :=
  scan_line (S (List.length line)) line 0.

(** ** The preprocessor *)

Definition MATH_BLOCK_HEAD : str :=
  lit "<div class=" ++ [QUOTE] ++ lit "math-block" ++ [QUOTE] ++ lit ">\["
      ++ [NEWLINE].
Definition MATH_BLOCK_TAIL : str := [NEWLINE] ++ lit "\]</div>".
Definition MATH_INLINE_HEAD : str :=
  lit "<span class=" ++ [QUOTE] ++ lit "math-inline" ++ [QUOTE] ++ lit ">\(".
Definition MATH_INLINE_TAIL : str := lit "\)</span>".

Definition _enclose_fence_block_math (block_math_lines : list str)
  : outcome str :=
  match Py.getitem block_math_lines 0 with
  | None => Raised IndexError
  | Some first =>
      let indent_len := Py.len first - Py.len (Py.lstrip first) in
      let block_math :=
        Py.rstrip
          (Py.join [NEWLINE]
             (map (fun line => Py.slice_from line indent_len)
                  (Py.slice block_math_lines 1 (-1)))) in
      Done (MATH_BLOCK_HEAD ++ block_math ++ MATH_BLOCK_TAIL)
  end.

Definition _enclose_non_fence_block_math (block_math_lines : list str) : str :=
  let block_math :=
    Py.rstrip (Py.join [NEWLINE] (Py.slice block_math_lines 1 (-1))) in
  MATH_BLOCK_HEAD ++ block_math ++ MATH_BLOCK_TAIL.

Definition _enclose_inline_math (inline_math : str) : str :=
  escape_backslashes (MATH_INLINE_HEAD ++ inline_math ++ MATH_INLINE_TAIL).

(** The loop of lines 238-241: the spans are applied last one first, each
    to the line as the previous replacements left it. *)
Definition replace_spans (line : str) (inline_codes : list InlineMathItem)
  : str :=
  fold_left
    (fun line code =>
       Py.slice_to line (start code)
         ++ _enclose_inline_math (inline_math code)
         ++ Py.slice_from line (end_ code))
    (rev inline_codes) line.

(** The local variables of [_iter_lines]. *)
Record state := mkState {
  is_in_code_fence_math : bool;
  is_in_code_fence : bool;
  is_in_math_block : bool;
  expected_code_fence_close : str;
  expected_math_block_close : str;
  block_math_lines : list str
}.

Definition initial_state : state :=
  mkState false false false (lit "```") (lit "\]") [].

(** One turn of the loop over the lines: the state after it and the lines
    it yields. *)
Definition step (st : state) (line : str) : outcome (state * list str) :=
  if is_in_code_fence st then
    if str_eqb (Py.rstrip line) (expected_code_fence_close st) then
      Done (mkState (is_in_code_fence_math st) false (is_in_math_block st)
              (expected_code_fence_close st) (expected_math_block_close st)
              (block_math_lines st), [line])
    else Done (st, [line])
  else if is_in_code_fence_math st then
    let buf := block_math_lines st ++ [line] in
    if str_eqb (Py.rstrip line) (expected_code_fence_close st) then
      enclosed_block_math <- _enclose_fence_block_math buf ;;
      Done (mkState false (is_in_code_fence st) (is_in_math_block st)
              (expected_code_fence_close st) (expected_math_block_close st)
              [], [enclosed_block_math])
    else
      Done (mkState (is_in_code_fence_math st) (is_in_code_fence st)
              (is_in_math_block st) (expected_code_fence_close st)
              (expected_math_block_close st) buf, [])
  else if is_in_math_block st then
    let buf := block_math_lines st ++ [line] in
    if Py.contains (expected_math_block_close st) line then
      Done (mkState (is_in_code_fence_math st) (is_in_code_fence st) false
              (expected_code_fence_close st) (expected_math_block_close st)
              [], [_enclose_non_fence_block_math buf])
    else
      Done (mkState (is_in_code_fence_math st) (is_in_code_fence st)
              (is_in_math_block st) (expected_code_fence_close st)
              (expected_math_block_close st) buf, [])
  else
    match CODE_FENCE_MATH_START_RE line with
    | Some (prefix, tok) =>
        Done (mkState true (is_in_code_fence st) (is_in_math_block st)
                (prefix ++ tok) (expected_math_block_close st)
                (block_math_lines st ++ [line]), [])
    | None =>
        match CODE_FENCE_RE line with
        | Some (prefix, tok, _) =>
            Done (mkState (is_in_code_fence_math st) true (is_in_math_block st)
                    (prefix ++ tok) (expected_math_block_close st)
                    (block_math_lines st), [line])
        | None =>
            match BLOCK_MATH_START_DELIM_RE line with
            | Some _ =>
                let math_delim := BLOCK_OPEN in
                match dict_get DELIM_START_END_MAP math_delim with
                | None => Raised KeyError
                | Some close =>
                    Done (mkState (is_in_code_fence_math st)
                            (is_in_code_fence st) true
                            close (expected_math_block_close st)
                            (block_math_lines st ++ [line]), [])
                end
            | None =>
                inline_codes <- iter_inline_katex line ;;
                Done (st, [replace_spans line inline_codes])
            end
        end
    end.

(** The loop of [_iter_lines] from the state [st]: the lines yielded and
    the state at the end of the document. *)
Fixpoint iter_loop (st : state) (lines : list str)
  : outcome (list str * state) :=
  match lines with
  | [] => Done ([], st)
  | line :: lines' =>
      r <- step st line ;;
      r' <- iter_loop (fst r) lines' ;;
      Done (snd r ++ fst r', snd r')
  end.

(** [_iter_lines] from a given state, with the lines of an unclosed block
    yielded at the end. *)
Definition iter_lines_from (st : state) (lines : list str)
  : outcome (list str) :=
  r <- iter_loop st lines ;;
  Done (fst r ++ block_math_lines (snd r)).

Definition _iter_lines (lines : list str) : outcome (list str) :=
  iter_lines_from initial_state lines.

Definition run (lines : list str) : outcome (list str) := _iter_lines lines.

(** ** The predicates of the statements *)

Definition INLINE_CLOSE : str := lit "\)".

(** A fence token: three or more backticks, or three or more tildes. *)
Definition is_fence_token (tok : str) : Prop :=
  exists c n, (c = BACKTICK \/ c = TILDE) /\ (3 <= n)%nat /\ tok = repeat c n.

(** No block is open. *)
Definition normal (st : state) : Prop :=
  is_in_code_fence st = false
  /\ is_in_code_fence_math st = false
  /\ is_in_math_block st = false.

(** No block is open and nothing is buffered: the state at the start of a
    document and after each block that closed. *)
Definition ready (st : state) : Prop :=
  normal st
  /\ block_math_lines st = []
  /\ expected_math_block_close st = lit "\]".

(** Inside a plain fence or a math fence whose close is [close]. *)
Definition in_fence (st : state) (close : str) : Prop :=
  (is_in_code_fence st = true /\ is_in_code_fence_math st = false
   \/ is_in_code_fence st = false /\ is_in_code_fence_math st = true)
  /\ is_in_math_block st = false
  /\ expected_code_fence_close st = close.

Definition closes_fence (close : str) (l : str) : bool :=
  str_eqb (Py.rstrip l) close.

Definition closes_bracket (l : str) : bool := Py.contains (lit "\]") l.

(** No inline opening of the line has a closing token after it: the first
    one has none (a later one then has none either). *)
Definition unterminated (line : str) : bool :=
  match Py.index line INLINE_OPEN 0 with
  | None => true
  | Some i =>
      match Py.index line INLINE_CLOSE (i + 2) with
      | None => true
      | Some _ => false
      end
  end.

(** The line opens a block (a fence, a math fence or a bracket block) that
    none of the lines of [rest] closes. *)
Definition stays_open (o : str) (rest : list str) : bool :=
  match CODE_FENCE_RE o with
  | Some (ws, tok, _) =>
      forallb (fun l => negb (closes_fence (ws ++ tok) l)) rest
  | None =>
      Py.startswith o BLOCK_OPEN
      && forallb (fun l => negb (closes_bracket l)) rest
  end.

(** What holds of the state all along a document. *)
Definition invariant (st : state) : Prop :=
  expected_math_block_close st = lit "\]"
  /\ (is_in_code_fence_math st = false ->
      is_in_math_block st = false ->
      block_math_lines st = []).

(** A call that ended: with a value or with IndexError, the one exception
    the scanner can raise. *)
Definition settled {A} (r : outcome A) : Prop :=
  r = Raised IndexError \/ exists a, r = Done a.

(** A span of a bracket pair: it starts at an opening token, ends after
    the first closing token found from the end of the opening, and holds
    the text between the two. *)
Definition bracket_item (line : str) (it : InlineMathItem) : Prop :=
  0 <= start it
  /\ Py.startswith (skipn (Z.to_nat (start it)) line) INLINE_OPEN = true
  /\ Py.index line INLINE_CLOSE (start it + 2) = Some (end_ it - 2)
  /\ inline_math it = Py.slice line (start it + 2) (end_ it - 2).

(** A span of a code span between dollars: [line[start]] and
    [line[end - 1]] are dollars. *)
Definition gitlab_item (line : str) (it : InlineMathItem) : Prop :=
  Py.getitem line (start it) = Some DOLLAR
  /\ Py.getitem line (end_ it - 1) = Some DOLLAR.


(** The text ends with a whitespace character. *)
Definition ends_with_space (b : str) : bool :=
  match rev b with
  | c :: _ => Py.isspace c
  | [] => false
  end.

(** [t] is the lines [ls] joined by newlines: followed by one more newline
    it is every line followed by a newline; no line at all gives the empty
    text. *)
Definition joined_by_newline (ls : list str) (t : str) : Prop :=
  match ls with
  | [] => t = []
  | _ :: _ =>
      t ++ [NEWLINE] = List.concat (map (fun l => l ++ [NEWLINE]) ls)
  end.

(** [b] is [t] right-trimmed: [t] is [b] followed by whitespace only, and
    [b] does not end with whitespace. *)
Definition right_trimmed (t b : str) : Prop :=
  ends_with_space b = false
  /\ exists trail, t = b ++ trail /\ forallb Py.isspace trail = true.


(** *** Predicates of the further properties *)

(** The text ends with a backslash. *)
Definition ends_with_backslash (a : str) : bool :=
  match rev a with
  | c :: _ => N.eqb c BACKSLASH
  | [] => false
  end.

(** The text starts with a character of the class of the escaper. *)
Definition starts_escapable (b : str) : bool :=
  match b with
  | c :: _ => escapable c
  | [] => false
  end.

(** The text holds a match of ESCAPE_BACKSLASHES_RE: a backslash at some
    offset [i] and a character of the class right after it. *)
Definition has_escape_match (text : str) : Prop :=
  exists i c,
    nth_error text i = Some BACKSLASH
    /\ nth_error text (S i) = Some c
    /\ escapable c = true.

Definition not_backslash (c : char) : bool := negb (N.eqb c BACKSLASH).

(** The text starts with a whitespace character. *)
Definition starts_space (r : str) : bool :=
  match r with
  | c :: _ => Py.isspace c
  | [] => false
  end.

(** The spans follow each other from the offset [p] to the offset [n]:
    each one starts at or after the end of the one before and ends at or
    after its own start. *)
Fixpoint ordered (p : Z) (items : list InlineMathItem) (n : Z) : Prop :=
  match items with
  | [] => p <= n
  | it :: rest =>
      p <= start it /\ start it <= end_ it /\ ordered (end_ it) rest n
  end.

(** The line from the offset [p] on, with each span replaced by the markup
    of its inner text and the text between the spans kept. *)
Fixpoint render (line : str) (p : Z) (items : list InlineMathItem) : str :=
  match items with
  | [] => Py.slice_from line p
  | it :: rest =>
      Py.slice line p (start it)
        ++ _enclose_inline_math (inline_math it)
        ++ render line (end_ it) rest
  end.

(** The four modes of the loop of [_iter_lines], with what the state holds
    in each: outside a block and inside a plain fence the buffer is empty;
    inside a math fence the buffer starts with the line that opened it and
    the expected close is its indent and its run; inside a bracket block
    the buffer starts with the line that opened it. *)
Definition in_mode (st : state) : Prop :=
  (normal st /\ block_math_lines st = [])
  \/ (is_in_code_fence st = true /\ is_in_code_fence_math st = false
      /\ is_in_math_block st = false /\ block_math_lines st = []
      /\ exists ws tok,
          expected_code_fence_close st = ws ++ tok
          /\ forallb Py.isspace ws = true /\ is_fence_token tok)
  \/ (is_in_code_fence st = false /\ is_in_code_fence_math st = true
      /\ is_in_math_block st = false
      /\ exists o rest ws tok,
          block_math_lines st = o :: rest
          /\ CODE_FENCE_MATH_START_RE o = Some (ws, tok)
          /\ expected_code_fence_close st = ws ++ tok)
  \/ (is_in_code_fence st = false /\ is_in_code_fence_math st = false
      /\ is_in_math_block st = true
      /\ exists o rest,
          block_math_lines st = o :: rest
          /\ Py.startswith o BLOCK_OPEN = true).

(** A line with nothing for the preprocessor: no backtick, no inline
    opening token, and it opens neither a fence nor a bracket block. *)
Definition plain_line (l : str) : bool :=
  negb (Py.contains [BACKTICK] l)
  && negb (Py.contains INLINE_OPEN l)
  && match CODE_FENCE_RE l with Some _ => false | None => true end
  && negb (Py.startswith l BLOCK_OPEN).

(** Two states that the loop cannot tell apart: they differ at most by the
    expected fence close, outside a fence, where the loop does not read
    it. *)
Definition agree (s1 s2 : state) : Prop :=
  is_in_code_fence_math s1 = is_in_code_fence_math s2
  /\ is_in_code_fence s1 = is_in_code_fence s2
  /\ is_in_math_block s1 = is_in_math_block s2
  /\ expected_math_block_close s1 = expected_math_block_close s2
  /\ block_math_lines s1 = block_math_lines s2
  /\ ((is_in_code_fence s1 || is_in_code_fence_math s1) = true ->
      expected_code_fence_close s1 = expected_code_fence_close s2).


(** * Properties *)

(** ** Strings *)

Lemma str_eqb_refl (a : str) : str_eqb a a = true.
Proof.
  induction a as [|x a IH]; simpl; [reflexivity|].
  now rewrite N.eqb_refl, IH.
Qed.

Lemma str_eqb_eq (a b : str) : str_eqb a b = true <-> a = b.
Proof.
  split; [|intros ->; apply str_eqb_refl].
  revert b; induction a as [|x a IH]; intros [|y b]; simpl; try easy.
  rewrite andb_true_iff, N.eqb_eq. intros [-> H]. now rewrite (IH _ H).
Qed.

Lemma len_app {A} (a b : list A) : Py.len (a ++ b) = Py.len a + Py.len b.
Proof. unfold Py.len. rewrite length_app. lia. Qed.

Lemma len_nonneg {A} (a : list A) : 0 <= Py.len a.
Proof. unfold Py.len. lia. Qed.

Lemma startswith_app (a b : str) : Py.startswith (a ++ b) a = true.
Proof.
  induction a as [|x a IH]; simpl; [now destruct b|].
  now rewrite N.eqb_refl.
Qed.

Lemma startswith_split (s sub : str) :
  Py.startswith s sub = true -> exists r, s = sub ++ r.
Proof.
  revert s; induction sub as [|x sub IH]; intros s H; simpl in *.
  - now exists s.
  - destruct s as [|y s]; [discriminate|].
    apply andb_true_iff in H as [E H]. apply N.eqb_eq in E as ->.
    destruct (IH _ H) as [r ->]. now exists r.
Qed.

(** *** Leading and trailing whitespace *)

Lemma span_space_split (s : str) :
  s = fst (span_space s) ++ snd (span_space s).
Proof.
  induction s as [|c s IH]; simpl; [reflexivity|].
  destruct (Py.isspace c); [|reflexivity].
  destruct (span_space s) as [w r]; simpl in *. now f_equal.
Qed.

Lemma span_space_fst (s : str) :
  forallb Py.isspace (fst (span_space s)) = true.
Proof.
  induction s as [|c s IH]; simpl; [reflexivity|].
  destruct (Py.isspace c) eqn:E; [|reflexivity].
  destruct (span_space s) as [w r]; simpl in *. now rewrite E.
Qed.

Lemma span_space_snd (s : str) : snd (span_space s) = Py.lstrip s.
Proof.
  induction s as [|c s IH]; simpl; [reflexivity|].
  destruct (Py.isspace c); [|reflexivity].
  destruct (span_space s) as [w r]; simpl in *. exact IH.
Qed.

Lemma lstrip_spaces (ws s : str) :
  forallb Py.isspace ws = true -> Py.lstrip (ws ++ s) = Py.lstrip s.
Proof.
  induction ws as [|c ws IH]; simpl; [reflexivity|].
  intros H. apply andb_true_iff in H as [-> H]. auto.
Qed.

Lemma forallb_rev {A} (f : A -> bool) (l : list A) :
  forallb f (rev l) = forallb f l.
Proof.
  induction l as [|x l IH]; simpl; [reflexivity|].
  rewrite forallb_app, IH. simpl. rewrite andb_true_r. apply andb_comm.
Qed.

(** A line right-trimmed is [x ++ [c]], [c] not a space, exactly when it
    is [x ++ [c]] followed by whitespace only. *)
Lemma rstrip_eq_iff (l x : str) (c : char) :
  Py.isspace c = false ->
  Py.rstrip l = x ++ [c] <->
  exists ws, l = x ++ [c] ++ ws /\ forallb Py.isspace ws = true.
Proof.
  intros Hc. unfold Py.rstrip. split.
  - intros H.
    assert (E : rev l = fst (span_space (rev l)) ++ Py.lstrip (rev l))
      by (rewrite <- span_space_snd; apply span_space_split).
    pose proof (span_space_fst (rev l)) as Hw.
    set (w := fst (span_space (rev l))) in *.
    exists (rev w). split.
    + apply (f_equal (@rev char)) in E.
      rewrite rev_involutive, rev_app_distr, H in E.
      now rewrite E, <- app_assoc.
    + now rewrite forallb_rev.
  - intros (ws & -> & Hws).
    rewrite !rev_app_distr. simpl. rewrite <- app_assoc.
    rewrite lstrip_spaces by now rewrite forallb_rev.
    simpl. rewrite Hc. simpl.
    now rewrite rev_involutive.
Qed.

(** *** Slices *)

Lemma slice_from_nat {A} (l : list A) (n : nat) :
  Py.slice_from l (Z.of_nat n) = skipn n l.
Proof.
  unfold Py.slice_from, Py.bound, Py.len.
  destruct (Z.of_nat n <? 0) eqn:E; [apply Z.ltb_lt in E; lia|].
  destruct (Nat.le_gt_cases n (List.length l)) as [Hle|Hgt].
  - f_equal. lia.
  - replace (Z.to_nat _) with (List.length l) by lia.
    rewrite !skipn_all2 by lia. reflexivity.
Qed.

(** [lines[1:-1]] of a list with a first and a last element. *)
Lemma slice_interior {A} (o c : A) (mid : list A) :
  Py.slice (o :: mid ++ [c]) 1 (-1) = mid.
Proof.
  unfold Py.slice, Py.bound, Py.len. simpl List.length.
  rewrite length_app. simpl List.length.
  change (1 <? 0) with false. change (-1 <? 0) with true. cbv beta iota.
  replace (Z.to_nat (Z.min (Z.max 1 0) _)) with 1%nat by lia.
  replace (Z.to_nat _) with (List.length mid) by lia.
  simpl. rewrite firstn_app, Nat.sub_diag, firstn_all. simpl.
  apply app_nil_r.
Qed.

Lemma slice_to_app {A} (a b : list A) : Py.slice_to (a ++ b) (Py.len a) = a.
Proof.
  unfold Py.slice_to, Py.bound.
  pose proof (len_nonneg a). pose proof (len_nonneg b).
  destruct (Py.len a <? 0) eqn:E; [apply Z.ltb_lt in E; lia|].
  rewrite len_app.
  replace (Z.min (Z.max (Py.len a) 0) (Py.len a + Py.len b))
    with (Py.len a) by lia.
  unfold Py.len. rewrite Nat2Z.id, firstn_app, firstn_all, Nat.sub_diag.
  cbn. apply app_nil_r.
Qed.

Lemma slice_from_app {A} (a b : list A) :
  Py.slice_from (a ++ b) (Py.len a) = b.
Proof.
  unfold Py.len. rewrite slice_from_nat, skipn_app, skipn_all, Nat.sub_diag.
  reflexivity.
Qed.

Lemma slice_app_mid {A} (a m b : list A) :
  Py.slice (a ++ m ++ b) (Py.len a) (Py.len a + Py.len m) = m.
Proof.
  unfold Py.slice, Py.bound.
  pose proof (len_nonneg a). pose proof (len_nonneg m).
  pose proof (len_nonneg b).
  destruct (Py.len a <? 0) eqn:E; [apply Z.ltb_lt in E; lia|].
  destruct (Py.len a + Py.len m <? 0) eqn:E'; [apply Z.ltb_lt in E'; lia|].
  rewrite !len_app.
  replace (Z.min (Z.max (Py.len a) 0) _) with (Py.len a) by lia.
  replace (Z.min (Z.max (Py.len a + Py.len m) 0) _)
    with (Py.len a + Py.len m) by lia.
  replace (Py.len a + Py.len m - Py.len a) with (Py.len m) by lia.
  unfold Py.len. rewrite !Nat2Z.id, skipn_app, skipn_all, Nat.sub_diag.
  cbn [skipn app]. rewrite firstn_app, firstn_all, Nat.sub_diag.
  cbn. apply app_nil_r.
Qed.

Lemma getitem_0 {A} (x : A) (l : list A) : Py.getitem (x :: l) 0 = Some x.
Proof.
  unfold Py.getitem, Py.len. cbn [Z.ltb Z.compare].
  destruct (Z.of_nat (List.length (x :: l)) <=? 0) eqn:E.
  - apply Z.leb_le in E. simpl List.length in E. lia.
  - reflexivity.
Qed.

Lemma nth_error_startswith (l : str) (n : nat) (c x : char) (t : str) :
  nth_error l n = Some c ->
  Py.startswith (skipn n l) (x :: t) = true ->
  c = x.
Proof.
  revert l; induction n as [|n IH]; intros [|a l]; cbn; try discriminate.
  - intros H; injection H as ->. intros H.
    apply andb_true_iff in H as [H _]. now apply N.eqb_eq in H.
  - apply IH.
Qed.

Lemma getitem_startswith (l : str) (k : Z) (c x : char) (t : str) :
  0 <= k ->
  Py.getitem l k = Some c ->
  Py.startswith (skipn (Z.to_nat k) l) (x :: t) = true ->
  c = x.
Proof.
  intros Hk. unfold Py.getitem.
  destruct (k <? 0) eqn:E; [apply Z.ltb_lt in E; lia|].
  destruct ((k <? 0) || (Py.len l <=? k)); [discriminate|].
  apply nth_error_startswith.
Qed.

(** ** Searching a token *)

Section Search.

Variable tok : str.

Lemma startswith_nil : tok <> [] -> Py.startswith [] tok = false.
Proof. destruct tok; [congruence | reflexivity]. Qed.

Lemma startswith_len (s : str) :
  Py.startswith s tok = true -> Py.len tok <= Py.len s.
Proof.
  intros H. apply startswith_split in H as [r ->].
  rewrite len_app. pose proof (len_nonneg r). lia.
Qed.

(** [find_at] returns the first offset at which the token occurs. *)
Lemma find_at_Some (s : str) (i j : Z) :
  Py.find_at tok s i = Some j ->
  i <= j <= i + Py.len s
  /\ Py.startswith (skipn (Z.to_nat (j - i)) s) tok = true
  /\ forall k, i <= k < j ->
               Py.startswith (skipn (Z.to_nat (k - i)) s) tok = false.
Proof.
  revert i; induction s as [|c s IH]; intros i; cbn [Py.find_at].
  - destruct (Py.startswith [] tok) eqn:E; [|discriminate].
    intros H; injection H as <-. rewrite Z.sub_diag.
    split; [unfold Py.len; simpl; lia|]. split; [exact E|].
    intros k Hk. lia.
  - destruct (Py.startswith (c :: s) tok) eqn:E.
    + intros H; injection H as <-. rewrite Z.sub_diag.
      pose proof (len_nonneg (c :: s)).
      split; [lia|]. split; [exact E|]. intros k Hk. lia.
    + intros H. apply IH in H as (Hj & Hs & Hm).
      assert (Hl : Py.len (c :: s) = 1 + Py.len s)
        by (unfold Py.len; simpl List.length; lia).
      split; [lia|]. split.
      * replace (Z.to_nat (j - i)) with (S (Z.to_nat (j - (i + 1)))) by lia.
        exact Hs.
      * intros k Hk. destruct (Z.eq_dec k i) as [->|Hne].
        { rewrite Z.sub_diag. exact E. }
        replace (Z.to_nat (k - i)) with (S (Z.to_nat (k - (i + 1)))) by lia.
        apply Hm. lia.
Qed.

Lemma find_at_None (s : str) (i : Z) :
  Py.find_at tok s i = None ->
  forall k : nat, Py.startswith (skipn k s) tok = false.
Proof.
  revert i; induction s as [|c s IH]; intros i; cbn [Py.find_at].
  - destruct (Py.startswith [] tok) eqn:E; [discriminate|].
    intros _ k. now rewrite skipn_nil.
  - destruct (Py.startswith (c :: s) tok) eqn:E; [discriminate|].
    intros H [|k]; [exact E|]. apply (IH _ H).
Qed.

Lemma find_at_None_intro (s : str) (i : Z) :
  (forall k : nat, Py.startswith (skipn k s) tok = false) ->
  Py.find_at tok s i = None.
Proof.
  intros H. destruct (Py.find_at tok s i) as [j|] eqn:E; [|reflexivity].
  apply find_at_Some in E as (_ & E & _). now rewrite H in E.
Qed.

(** [s.index(tok, q)] from an offset that is not negative. *)
Lemma index_Some (s : str) (q j : Z) :
  0 <= q ->
  Py.index s tok q = Some j ->
  q <= j <= Py.len s
  /\ Py.startswith (skipn (Z.to_nat j) s) tok = true
  /\ forall k, q <= k < j ->
               Py.startswith (skipn (Z.to_nat k) s) tok = false.
Proof.
  intros Hq. unfold Py.index.
  destruct (q <? 0) eqn:E0; [apply Z.ltb_lt in E0; lia|].
  destruct (Py.len s <? q) eqn:E1; [discriminate|].
  apply Z.ltb_ge in E1. intros H.
  apply find_at_Some in H as (Hj & Hs & Hm).
  assert (Hl : Py.len (skipn (Z.to_nat q) s) = Py.len s - q)
    by (unfold Py.len in *; rewrite length_skipn; lia).
  split; [lia|]. split.
  - rewrite skipn_skipn in Hs.
    now replace (Z.to_nat (j - q) + Z.to_nat q)%nat with (Z.to_nat j)
      in Hs by lia.
  - intros k Hk. specialize (Hm k Hk). rewrite skipn_skipn in Hm.
    now replace (Z.to_nat (k - q) + Z.to_nat q)%nat with (Z.to_nat k)
      in Hm by lia.
Qed.

Lemma index_None (s : str) (q : Z) :
  tok <> [] -> 0 <= q ->
  Py.index s tok q = None ->
  forall k, q <= k -> Py.startswith (skipn (Z.to_nat k) s) tok = false.
Proof.
  intros Ht Hq. unfold Py.index.
  destruct (q <? 0) eqn:E0; [apply Z.ltb_lt in E0; lia|].
  destruct (Py.len s <? q) eqn:E1.
  - apply Z.ltb_lt in E1. intros _ k Hk.
    rewrite skipn_all2 by (unfold Py.len in E1; lia).
    now apply startswith_nil.
  - intros H k Hk.
    pose proof (find_at_None _ _ H (Z.to_nat (k - q))) as Hn.
    rewrite skipn_skipn in Hn.
    now replace (Z.to_nat (k - q) + Z.to_nat q)%nat with (Z.to_nat k)
      in Hn by lia.
Qed.

(** Nothing found from [q]: nothing found from a later offset. *)
Lemma index_None_later (s : str) (q q' : Z) :
  tok <> [] -> 0 <= q <= q' ->
  Py.index s tok q = None -> Py.index s tok q' = None.
Proof.
  intros Ht Hq H.
  destruct (Py.index s tok q') as [j|] eqn:E; [|reflexivity].
  apply index_Some in E as (Hj & E & _); [|lia].
  rewrite (index_None _ _ Ht (proj1 Hq) H j) in E by lia. discriminate.
Qed.

(** [pattern.search(s, p)] of the literal pattern is [s.index(tok, p)]
    without the exception. *)
Lemma search_literal_index (s : str) (p : Z) :
  tok <> [] -> 0 <= p ->
  Py.search_literal tok s p =
  match Py.index s tok p with
  | Some i => Some (i, i + Py.len tok)
  | None => None
  end.
Proof.
  intros Ht Hp. unfold Py.search_literal, Py.index.
  destruct (p <? 0) eqn:E0; [apply Z.ltb_lt in E0; lia|].
  pose proof (len_nonneg s) as Hl.
  destruct (Py.len s <? p) eqn:E1.
  - apply Z.ltb_lt in E1.
    replace (Z.min (Z.max p 0) (Py.len s)) with (Py.len s) by lia.
    rewrite skipn_all2 by (unfold Py.len; lia).
    cbn [Py.find_at]. now rewrite startswith_nil.
  - apply Z.ltb_ge in E1.
    replace (Z.min (Z.max p 0) (Py.len s)) with p by lia. reflexivity.
Qed.

End Search.

Lemma index_first (tok s : str) (q j : Z) :
  tok <> [] -> 0 <= q <= j ->
  Py.startswith (skipn (Z.to_nat j) s) tok = true ->
  (forall k, q <= k < j ->
             Py.startswith (skipn (Z.to_nat k) s) tok = false) ->
  Py.index s tok q = Some j.
Proof.
  intros Ht Hq Ho Hmin.
  destruct (Py.index s tok q) as [j'|] eqn:E.
  - apply index_Some in E as (Hj' & Ho' & Hmin'); [|lia].
    destruct (Z.lt_trichotomy j' j) as [Hlt | [-> | Hgt]].
    + rewrite (Hmin j') in Ho' by lia. discriminate.
    + reflexivity.
    + rewrite (Hmin' j) in Ho by lia. discriminate.
  - rewrite (index_None _ _ _ Ht (proj1 Hq) E j) in Ho by lia. discriminate.
Qed.

(** A token of two different characters that does not occur in [x] does
    not start in [x] when its first character follows [x]. *)
Lemma two_char_not_across (a b : char) (x r : str) (k : nat) :
  a <> b ->
  Py.contains [a; b] x = false ->
  (k < List.length x)%nat ->
  Py.startswith (skipn k (x ++ a :: r)) [a; b] = false.
Proof.
  intros Hab Hc Hk. unfold Py.contains in Hc.
  destruct (Py.find_at [a; b] x 0) eqn:E; [discriminate|].
  pose proof (find_at_None _ _ _ E k) as Hn.
  rewrite skipn_app.
  replace (k - List.length x)%nat with 0%nat by lia. cbn [skipn].
  destruct (skipn k x) as [|c y] eqn:Ey.
  - apply (f_equal (@List.length char)) in Ey.
    rewrite length_skipn in Ey. simpl in Ey. lia.
  - cbn [app Py.startswith] in *.
    destruct (N.eqb a c); [|reflexivity]. cbn [andb] in *.
    destruct y as [|d y]; cbn [app].
    + cbn [Py.startswith]. destruct (N.eqb b a) eqn:Eba; [|reflexivity].
      apply N.eqb_eq in Eba. congruence.
    + cbn [Py.startswith] in *. destruct (N.eqb b d); [|reflexivity].
      now destruct y.
Qed.

(** ** The fence patterns *)

Lemma span_char_split (c : char) (s : str) :
  s = fst (span_char c s) ++ snd (span_char c s).
Proof.
  induction s as [|d s IH]; simpl; [reflexivity|].
  destruct (N.eqb d c); [|reflexivity].
  destruct (span_char c s) as [w r]; simpl in *. now f_equal.
Qed.

Lemma span_char_run (c : char) (s : str) :
  fst (span_char c s) = repeat c (List.length (fst (span_char c s))).
Proof.
  induction s as [|d s IH]; simpl; [reflexivity|].
  destruct (N.eqb d c) eqn:E; [|reflexivity].
  apply N.eqb_eq in E as ->.
  destruct (span_char c s) as [w r]; simpl in *. now f_equal.
Qed.

(** The run is the longest one: what follows does not start with [c]. *)
Lemma span_char_longest (c : char) (s : str) :
  Py.startswith (snd (span_char c s)) [c] = false.
Proof.
  induction s as [|d s IH]; simpl; [reflexivity|].
  destruct (N.eqb d c) eqn:E.
  - destruct (span_char c s) as [w r]; simpl in *. exact IH.
  - simpl. rewrite N.eqb_sym, E. reflexivity.
Qed.

Lemma fence_token_spec (s tok rest : str) :
  fence_token s = Some (tok, rest) ->
  s = tok ++ rest /\ is_fence_token tok.
Proof.
  unfold fence_token.
  pose proof (span_char_split BACKTICK s) as Sb.
  pose proof (span_char_run BACKTICK s) as Rb.
  pose proof (span_char_split TILDE s) as St.
  pose proof (span_char_run TILDE s) as Rt.
  destruct (span_char BACKTICK s) as [bt r1].
  destruct (span_char TILDE s) as [tl r2]. cbn [fst snd] in *.
  destruct (3 <=? List.length bt)%nat eqn:E1.
  - intros H; injection H as <- <-. split; [exact Sb|].
    exists BACKTICK, (List.length bt). apply Nat.leb_le in E1. auto.
  - destruct (3 <=? List.length tl)%nat eqn:E2; [|discriminate].
    intros H; injection H as <- <-. split; [exact St|].
    exists TILDE, (List.length tl). apply Nat.leb_le in E2. auto.
Qed.

(** What [CODE_FENCE_RE] matches: whitespace, a fence token, the rest. *)
Lemma CODE_FENCE_RE_spec (line ws tok rest : str) :
  CODE_FENCE_RE line = Some (ws, tok, rest) ->
  line = ws ++ tok ++ rest
  /\ forallb Py.isspace ws = true
  /\ is_fence_token tok.
Proof.
  unfold CODE_FENCE_RE.
  pose proof (span_space_split line) as S.
  pose proof (span_space_fst line) as F.
  destruct (span_space line) as [w r]. cbn [fst snd] in *.
  destruct (fence_token r) as [[t r']|] eqn:E; [|discriminate].
  intros H; injection H as <- <- <-. apply fence_token_spec in E as [-> Ht].
  auto.
Qed.


(** A fence token ends with a character that is not whitespace. *)
Lemma fence_token_last (tok : str) :
  is_fence_token tok ->
  exists t c, tok = t ++ [c] /\ Py.isspace c = false.
Proof.
  intros (c & n & Hc & Hn & ->).
  destruct n as [|n]; [lia|].
  exists (repeat c n), c. split.
  - now rewrite <- repeat_cons.
  - now destruct Hc as [-> | ->].
Qed.

(** The test of lines 190 and 194 on an expected close [ws ++ tok]. *)
Lemma fence_close_iff (ws tok l : str) :
  is_fence_token tok ->
  str_eqb (Py.rstrip l) (ws ++ tok) = true <->
  exists trail, l = ws ++ tok ++ trail /\ forallb Py.isspace trail = true.
Proof.
  intros Ht. destruct (fence_token_last _ Ht) as (t & c & -> & Hc).
  rewrite str_eqb_eq, app_assoc, (rstrip_eq_iff _ _ _ Hc).
  split; intros (trail & E & H); exists trail; split; auto;
    rewrite E; now rewrite <- !app_assoc.
Qed.

(** A line that starts with the token of a bracket block opens no fence. *)
Lemma block_open_no_fence (line : str) :
  Py.startswith line BLOCK_OPEN = true ->
  CODE_FENCE_RE line = None /\ CODE_FENCE_MATH_START_RE line = None.
Proof.
  intros H. apply startswith_split in H as [r ->].
  unfold CODE_FENCE_MATH_START_RE.
  assert (E : CODE_FENCE_RE (BLOCK_OPEN ++ r) = None) by reflexivity.
  now rewrite E.
Qed.


(** ** The block state machine *)

Lemma initial_ready : ready initial_state.
Proof. repeat split. Qed.

Lemma iter_loop_app (st : state) (a b : list str) :
  iter_loop st (a ++ b) =
  (r <- iter_loop st a ;;
   r' <- iter_loop (snd r) b ;;
   Done (fst r ++ fst r', snd r')).
Proof.
  revert st; induction a as [|l a IH]; intros st; simpl.
  - destruct (iter_loop st b) as [[o s]| |]; reflexivity.
  - destruct (step st l) as [[s o]| |]; simpl; [|reflexivity..].
    rewrite IH.
    destruct (iter_loop s a) as [[o1 s1]| |]; simpl; [|reflexivity..].
    destruct (iter_loop s1 b) as [[o2 s2]| |]; simpl; [|reflexivity..].
    now rewrite app_assoc.
Qed.

(** The step that opens a fence. *)
Lemma step_open_fence (st : state) (line ws tok rest : str) :
  normal st ->
  CODE_FENCE_RE line = Some (ws, tok, rest) ->
  step st line =
  if Py.startswith rest (lit "math")
  then Done (mkState true false false (ws ++ tok)
               (expected_math_block_close st)
               (block_math_lines st ++ [line]), [])
  else Done (mkState false true false (ws ++ tok)
               (expected_math_block_close st)
               (block_math_lines st), [line]).
Proof.
  intros (H1 & H2 & H3) E. unfold step, CODE_FENCE_MATH_START_RE.
  rewrite H1, H2, H3, E.
  destruct (Py.startswith rest (lit "math")); reflexivity.
Qed.

(** The step that opens a bracket block. *)
Lemma step_open_bracket (st : state) (line : str) :
  normal st ->
  Py.startswith line BLOCK_OPEN = true ->
  step st line =
  Done (mkState false false true (lit "\]") (expected_math_block_close st)
          (block_math_lines st ++ [line]), []).
Proof.
  intros (H1 & H2 & H3) E. unfold step.
  destruct (block_open_no_fence _ E) as [E1 E2].
  unfold BLOCK_MATH_START_DELIM_RE.
  rewrite H1, H2, H3, E1, E2, E. reflexivity.
Qed.

(** Lines inside a plain fence that do not close it. *)
Lemma iter_loop_in_code_fence (body : list str) :
  forall fm mb close mclose buf,
  forallb (fun l => negb (closes_fence close l)) body = true ->
  iter_loop (mkState fm true mb close mclose buf) body =
  Done (body, mkState fm true mb close mclose buf).
Proof.
  induction body as [|l body IH]; intros fm mb close mclose buf H; simpl in *.
  - reflexivity.
  - apply andb_true_iff in H as [Hl H]. apply negb_true_iff in Hl.
    unfold closes_fence in Hl. unfold step. simpl. rewrite Hl. simpl.
    now rewrite (IH _ _ _ _ _ H).
Qed.

(** Lines inside a math fence that do not close it. *)
Lemma iter_loop_in_fence_math (body : list str) :
  forall mb close mclose buf,
  forallb (fun l => negb (closes_fence close l)) body = true ->
  iter_loop (mkState true false mb close mclose buf) body =
  Done ([], mkState true false mb close mclose (buf ++ body)).
Proof.
  induction body as [|l body IH]; intros mb close mclose buf H; simpl in *.
  - now rewrite app_nil_r.
  - apply andb_true_iff in H as [Hl H]. apply negb_true_iff in Hl.
    unfold closes_fence in Hl. unfold step. simpl. rewrite Hl. simpl.
    rewrite (IH _ _ _ _ H). simpl. now rewrite <- app_assoc.
Qed.

(** Lines inside a bracket block that do not close it. *)
Lemma iter_loop_in_math_block (body : list str) :
  forall close buf,
  forallb (fun l => negb (closes_bracket l)) body = true ->
  iter_loop (mkState false false true close (lit "\]") buf) body =
  Done ([], mkState false false true close (lit "\]") (buf ++ body)).
Proof.
  induction body as [|l body IH]; intros close buf H; simpl in *.
  - now rewrite app_nil_r.
  - apply andb_true_iff in H as [Hl H]. apply negb_true_iff in Hl.
    unfold closes_bracket in Hl. unfold step. simpl. rewrite Hl. simpl.
    rewrite (IH _ _ H). simpl. now rewrite <- app_assoc.
Qed.


(** *** Joining and trimming the lines of a block *)

Lemma join_concat (l : str) (ls : list str) :
  Py.join [NEWLINE] (l :: ls) ++ [NEWLINE]
  = List.concat (map (fun x => x ++ [NEWLINE]) (l :: ls)).
Proof.
  revert l; induction ls as [|a ls IH]; intros l.
  - cbn. now rewrite app_nil_r.
  - change (Py.join [NEWLINE] (l :: a :: ls))
      with (l ++ [NEWLINE] ++ Py.join [NEWLINE] (a :: ls)).
    change (List.concat (map (fun x => x ++ [NEWLINE]) (l :: a :: ls)))
      with ((l ++ [NEWLINE])
              ++ List.concat (map (fun x => x ++ [NEWLINE]) (a :: ls))).
    now rewrite <- IH, <- !app_assoc.
Qed.

(** The lines joined by newlines are what [join] returns, and nothing
    else. *)
Lemma joined_unique (ls : list str) (t : str) :
  joined_by_newline ls t <-> Py.join [NEWLINE] ls = t.
Proof.
  destruct ls as [|l ls]; cbn [joined_by_newline].
  - cbn. split; congruence.
  - rewrite <- join_concat. split.
    + intros H. now apply app_inj_tail in H as [-> _].
    + now intros ->.
Qed.

(** The text right-trimmed is what [rstrip] returns, and nothing else. *)
Lemma rstrip_trimmed (t b : str) :
  right_trimmed t b -> Py.rstrip t = b.
Proof.
  intros (He & trail & -> & Hw).
  destruct b as [|c x _] using rev_ind.
  - cbn [app]. unfold Py.rstrip.
    rewrite <- (app_nil_r (rev trail)), lstrip_spaces
      by now rewrite forallb_rev.
    reflexivity.
  - unfold ends_with_space in He. rewrite rev_app_distr in He. cbn in He.
    apply (rstrip_eq_iff _ x c He). exists trail.
    split; [now rewrite <- app_assoc | exact Hw].
Qed.


(** One line read inside a fence. *)
Lemma step_in_fence (st : state) (close l : str) :
  in_fence st close ->
  exists st2 out2,
    step st l = Done (st2, out2)
    /\ if closes_fence close l then normal st2 else in_fence st2 close.
Proof.
  intros ([[H1 H2]|[H1 H2]] & H3 & <-); unfold step, closes_fence;
    rewrite H1, ?H2.
  - destruct (str_eqb _ _); do 2 eexists; (split; [reflexivity|]).
    + repeat split; assumption.
    + unfold in_fence. auto.
  - destruct (str_eqb _ _).
    + unfold _enclose_fence_block_math.
      destruct (block_math_lines st) as [|x buf]; cbn [app];
        rewrite getitem_0; cbn [bind]; do 2 eexists;
        (split; [reflexivity|]); repeat split; assumption.
    + do 2 eexists. split; [reflexivity|]. unfold in_fence. cbn. auto.
Qed.

Lemma normal_not_in_fence (st : state) (close : str) :
  normal st -> in_fence st close -> False.
Proof.
  intros (H1 & H2 & _) ([[H _]|[_ H]] & _); congruence.
Qed.

(** *** The state between two blocks *)

Lemma step_invariant (st st' : state) (line : str) (out : list str) :
  invariant st -> step st line = Done (st', out) -> invariant st'.
Proof.
  intros (Hm & Hb). unfold step.
  assert (K : forall fm cf mb close buf,
             (fm = false -> mb = false -> buf = []) ->
             invariant (mkState fm cf mb close
                          (expected_math_block_close st) buf)).
  { intros. split; cbn; assumption. }
  assert (Hst : invariant st) by (split; assumption).
  destruct (is_in_code_fence st) eqn:E1.
  { destruct (str_eqb _ _); intros H; injection H as <- _;
      [apply K, Hb | exact Hst]. }
  destruct (is_in_code_fence_math st) eqn:E2.
  { destruct (str_eqb _ _).
    - destruct (_enclose_fence_block_math _); cbn [bind]; try discriminate.
      intros H; injection H as <- _. apply K. reflexivity.
    - intros H; injection H as <- _. apply K. discriminate. }
  destruct (is_in_math_block st) eqn:E3.
  { destruct (Py.contains _ _); intros H; injection H as <- _; apply K;
      first [reflexivity | intros _; discriminate]. }
  destruct (CODE_FENCE_MATH_START_RE line) as [[p t]|].
  { intros H; injection H as <- _. apply K. discriminate. }
  destruct (CODE_FENCE_RE line) as [[[p t] r]|].
  { intros H; injection H as <- _. apply K. intros _ _. now apply Hb. }
  destruct (BLOCK_MATH_START_DELIM_RE line).
  { change (dict_get DELIM_START_END_MAP BLOCK_OPEN) with (Some (lit "\]")).
    intros H; injection H as <- _. apply K. intros _; discriminate. }
  destruct (iter_inline_katex line); cbn [bind]; try discriminate.
  intros H; injection H as <- _. exact Hst.
Qed.

Lemma iter_loop_invariant (lines : list str) :
  forall st st' out,
    invariant st -> iter_loop st lines = Done (out, st') -> invariant st'.
Proof.
  induction lines as [|l lines IH]; intros st st' out Hi; cbn [iter_loop].
  - intros H; injection H as _ <-. exact Hi.
  - destruct (step st l) as [[s o]| |] eqn:Es; cbn [bind]; try discriminate.
    cbn [fst snd].
    destruct (iter_loop s lines) as [[o' s']| |] eqn:El; cbn [bind];
      try discriminate.
    intros H; injection H as _ <-.
    exact (IH _ _ _ (step_invariant _ _ _ _ Hi Es) El).
Qed.

(** Between two blocks of a document the buffer is empty. *)
Lemma reachable_ready (pre out : list str) (st : state) :
  iter_loop initial_state pre = Done (out, st) -> normal st -> ready st.
Proof.
  intros H Hn.
  assert (Hi : invariant initial_state) by (split; [reflexivity | auto]).
  destruct (iter_loop_invariant _ _ _ _ Hi H) as (Hm & Hb).
  destruct Hn as (H1 & H2 & H3). repeat split; auto.
Qed.

Lemma run_app (pre suf out : list str) (st : state) :
  iter_loop initial_state pre = Done (out, st) ->
  run (pre ++ suf) = (r <- iter_lines_from st suf ;; Done (out ++ r)).
Proof.
  intros H. unfold run, _iter_lines, iter_lines_from.
  rewrite iter_loop_app, H. cbn [bind fst snd].
  destruct (iter_loop st suf) as [[o s]| |]; cbn [bind fst snd];
    [|reflexivity..].
  now rewrite app_assoc.
Qed.

(** A block that no later line closes: its lines are yielded as they
    are, at once inside a plain fence, at the end of the document from the
    buffer otherwise. *)
Lemma unclosed_block_verbatim (st : state) (o : str) (rest : list str) :
  ready st ->
  stays_open o rest = true ->
  iter_lines_from st (o :: rest) = Done (o :: rest).
Proof.
  intros (Hn & Hb & Hm). unfold stays_open, iter_lines_from.
  cbn [iter_loop].
  destruct (CODE_FENCE_RE o) as [[[ws tok] r]|] eqn:E.
  - intros Hr. rewrite (step_open_fence _ _ _ _ _ Hn E), Hb.
    destruct (Py.startswith r (lit "math")); cbn [bind fst snd app].
    + rewrite (iter_loop_in_fence_math _ _ _ _ _ Hr). reflexivity.
    + rewrite (iter_loop_in_code_fence _ _ _ _ _ _ Hr). cbn.
      now rewrite app_nil_r.
  - intros H. apply andb_true_iff in H as [Ho Hr].
    rewrite (step_open_bracket _ _ Hn Ho), Hb, Hm. cbn [bind fst snd app].
    rewrite (iter_loop_in_math_block _ _ _ Hr). reflexivity.
Qed.

(** ** The escaper *)

(** A backslash that follows [a] is not the second character of a match:
    the text before it is escaped on its own. *)
Lemma escape_app_backslash (a b : str) :
  escape_backslashes (a ++ BACKSLASH :: b) =
  escape_backslashes a ++ escape_backslashes (BACKSLASH :: b).
Proof.
  remember (List.length a) as n eqn:Hn.
  revert a Hn. induction n as [n IH] using lt_wf_ind. intros a Hn.
  destruct a as [|c a]; [reflexivity|].
  cbn [app]. cbn [escape_backslashes].
  destruct (N.eqb c BACKSLASH) eqn:Ec.
  - destruct a as [|d a].
    + cbn [app]. change (escapable BACKSLASH) with false.
      cbv beta iota. reflexivity.
    + cbn [app]. destruct (escapable d).
      * cbn [app]. do 3 f_equal.
        apply (IH (List.length a)); [simpl in Hn; lia | reflexivity].
      * cbn [app]. f_equal.
        apply (IH (List.length (d :: a)) ltac:(simpl in *; lia) (d :: a)).
        reflexivity.
  - cbn [app]. f_equal.
    apply (IH (List.length a)); [simpl in Hn; lia | reflexivity].
Qed.

(** The markup of an inline span: the escaper runs over the whole markup,
    so the two tokens around the body are escaped with it. *)
Lemma enclose_inline_math_eq (body : str) :
  _enclose_inline_math body =
  lit "<span class=" ++ [QUOTE] ++ lit "math-inline" ++ [QUOTE]
      ++ lit ">\\(" ++ escape_backslashes body ++ lit "\\)</span>".
Proof.
  unfold _enclose_inline_math, MATH_INLINE_HEAD, MATH_INLINE_TAIL.
  change (lit "\)</span>") with (BACKSLASH :: lit ")</span>").
  transitivity
    (lit "<span class=" ++ [QUOTE] ++ lit "math-inline" ++ [QUOTE]
         ++ lit ">\\("
         ++ escape_backslashes (body ++ BACKSLASH :: lit ")</span>")).
  - reflexivity.
  - rewrite escape_app_backslash. reflexivity.
Qed.

(** ** The inline scanner *)

Lemma inline_open_not_nil : INLINE_OPEN <> [].
Proof. discriminate. Qed.

Lemma inline_close_not_nil : INLINE_CLOSE <> [].
Proof. discriminate. Qed.

(** A line without a backtick has no code span delimiter. *)
Lemma no_code_span_delim (line : str) (pos : Z) :
  Py.contains [BACKTICK] line = false ->
  CODE_SPAN_DELIM_RE line pos = None.
Proof.
  unfold Py.contains, CODE_SPAN_DELIM_RE, Py.search_literal. intros H.
  destruct (Py.find_at [BACKTICK] line 0) eqn:E; [discriminate|].
  rewrite find_at_None_intro; [reflexivity|].
  intros k. rewrite skipn_skipn. apply (find_at_None _ _ _ E).
Qed.

Lemma code_span_delim_spec (line : str) (pos s e : Z) (d : str) :
  0 <= pos ->
  CODE_SPAN_DELIM_RE line pos = Some (s, e, d) ->
  pos <= s < Py.len line
  /\ (d = [BACKTICK] \/ d = [BACKTICK; BACKTICK]).
Proof.
  intros Hp. unfold CODE_SPAN_DELIM_RE.
  rewrite (search_literal_index [BACKTICK] line pos) by (discriminate || lia).
  destruct (Py.index line [BACKTICK] pos) as [i|] eqn:Ei; [|discriminate].
  apply index_Some in Ei as (Hi & Ho & _); [|exact Hp].
  apply startswith_len in Ho. change (Py.len [BACKTICK]) with 1 in Ho.
  unfold Py.len in Ho. rewrite length_skipn in Ho.
  assert (Hs : pos <= i < Py.len line) by (unfold Py.len in *; lia).
  destruct (Py.getitem line (i + 1)) as [c|];
    [destruct (N.eqb c BACKTICK)|]; intros H; injection H as <- _ <-; auto.
Qed.

(** *** The scanner always returns or raises IndexError *)

Lemma settled_yield {A} (x : A) (r : outcome (list A)) :
  settled r -> settled (yield x r).
Proof.
  intros [-> | [l ->]]; [now left | right; now eexists].
Qed.

Lemma scan_after_settled (line : str) :
  forall fuel p,
    0 <= p ->
    (Z.to_nat (Py.len line - p) < fuel)%nat ->
    exists items, scan_after fuel line p = Done items.
Proof.
  induction fuel as [|fuel IH]; intros p Hp Hf; [lia|].
  cbn [scan_after]. unfold INLINE_MATH_START_DELIM_RE.
  rewrite (search_literal_index _ _ _ inline_open_not_nil Hp).
  destruct (Py.index line INLINE_OPEN p) as [m|] eqn:Em; [|now eexists].
  apply index_Some in Em as (Hm & Ho & _); [|exact Hp].
  apply startswith_len in Ho. change (Py.len INLINE_OPEN) with 2 in Ho.
  unfold Py.len in Ho. rewrite length_skipn in Ho.
  change (dict_get DELIM_START_END_MAP INLINE_OPEN) with (Some INLINE_CLOSE).
  change (Py.len INLINE_OPEN) with 2. cbv beta iota zeta.
  destruct (Py.index line INLINE_CLOSE (m + 2)) as [j|] eqn:Ej.
  - apply index_Some in Ej as (Hj & _ & _); [|lia].
    destruct (IH (j + 2)) as [items ->]; [lia | unfold Py.len in *; lia |].
    now eexists.
  - apply IH; [lia | unfold Py.len in *; lia].
Qed.

Lemma scan_before_settled (line : str) (search_end_pos : Z) :
  forall fuel p,
    0 <= p ->
    (Z.to_nat (Py.len line - p) < fuel)%nat ->
    exists items, scan_before fuel line search_end_pos p = Done items.
Proof.
  induction fuel as [|fuel IH]; intros p Hp Hf; [lia|].
  cbn [scan_before].
  destruct (p <=? search_end_pos); [|now eexists].
  unfold INLINE_MATH_START_DELIM_RE.
  rewrite (search_literal_index _ _ _ inline_open_not_nil Hp).
  destruct (Py.index line INLINE_OPEN p) as [m|] eqn:Em; [|now eexists].
  apply index_Some in Em as (Hm & Ho & _); [|exact Hp].
  apply startswith_len in Ho. change (Py.len INLINE_OPEN) with 2 in Ho.
  unfold Py.len in Ho. rewrite length_skipn in Ho.
  change (dict_get DELIM_START_END_MAP INLINE_OPEN) with (Some INLINE_CLOSE).
  change (Py.len INLINE_OPEN) with 2. cbv beta iota zeta.
  destruct (m + 2 >? search_end_pos); [now eexists|].
  destruct (Py.index line INLINE_CLOSE (m + 2)) as [j|] eqn:Ej.
  - apply index_Some in Ej as (Hj & _ & _); [|lia].
    destruct (IH (j + 2)) as [items ->]; [lia | unfold Py.len in *; lia |].
    now eexists.
  - apply IH; [lia | unfold Py.len in *; lia].
Qed.

Lemma scan_line_settled (line : str) :
  forall fuel pos,
    0 <= pos ->
    (Z.to_nat (Py.len line - pos) < fuel)%nat ->
    settled (scan_line fuel line pos).
Proof.
  induction fuel as [|fuel IH]; intros pos Hp Hf; [lia|].
  cbn [scan_line].
  destruct (CODE_SPAN_DELIM_RE line pos) as [[[s e] d]|] eqn:Ec.
  - apply code_span_delim_spec in Ec as (Hs & Hd); [|exact Hp].
    destruct (scan_before_settled line s (S (List.length line)) pos Hp)
      as [before ->]; [unfold Py.len; lia|].
    cbn [bind].
    assert (Hl : 1 <= Py.len d)
      by (destruct Hd as [-> | ->]; unfold Py.len; simpl; lia).
    assert (K : forall r : outcome (list InlineMathItem),
               settled r ->
               settled (rest <- r ;; Done (before ++ rest))).
    { intros r [-> | [l ->]]; [now left | right; now eexists]. }
    apply K.
    destruct (Py.index line d (s + Py.len d)) as [i|] eqn:Ei.
    + apply index_Some in Ei as (Hi & _ & _); [|lia].
      assert (R1 : settled (scan_line fuel line (i + (Py.len d - 1))))
        by (apply IH; unfold Py.len in *; lia).
      destruct (Py.getitem line (s - 1)) as [c1|]; [|now left].
      destruct (N.eqb c1 DOLLAR); [|exact R1].
      destruct (Py.getitem line (i + (Py.len d - 1) + 1)) as [c2|];
        [|now left].
      destruct (N.eqb c2 DOLLAR); [|exact R1].
      apply settled_yield, IH; unfold Py.len in *; lia.
    + apply IH; unfold Py.len in *; lia.
  - destruct (scan_after_settled line (S (List.length line)) pos Hp)
      as [items ->]; [unfold Py.len; lia|].
    right. now eexists.
Qed.

(** The fuel of [iter_inline_katex] is enough on every line: the call
    returns its spans or raises IndexError. *)
Lemma iter_inline_katex_settled (line : str) :
  settled (iter_inline_katex line).
Proof.
  apply scan_line_settled; [lia | unfold Py.len; lia].
Qed.

Lemma step_settled (st : state) (line : str) : settled (step st line).
Proof.
  unfold step.
  destruct (is_in_code_fence st).
  { destruct (str_eqb _ _); right; now eexists. }
  destruct (is_in_code_fence_math st).
  { destruct (str_eqb _ _); [|right; now eexists].
    unfold _enclose_fence_block_math.
    destruct (block_math_lines st); cbn [app]; rewrite getitem_0;
      right; now eexists. }
  destruct (is_in_math_block st).
  { destruct (Py.contains _ _); right; now eexists. }
  destruct (CODE_FENCE_MATH_START_RE line) as [[p t]|];
    [right; now eexists|].
  destruct (CODE_FENCE_RE line) as [[[p t] r]|]; [right; now eexists|].
  destruct (BLOCK_MATH_START_DELIM_RE line); [right; now eexists|].
  destruct (iter_inline_katex_settled line) as [-> | [l ->]];
    [now left | right; now eexists].
Qed.

Lemma iter_loop_settled (lines : list str) :
  forall st, settled (iter_loop st lines).
Proof.
  induction lines as [|l lines IH]; intros st; cbn [iter_loop].
  - right. now eexists.
  - destruct (step_settled st l) as [-> | [[s o] ->]]; [now left|].
    cbn [bind fst snd].
    destruct (IH s) as [-> | [[o' s'] ->]]; [now left|].
    right. now eexists.
Qed.

(** [run] returns a list of lines or raises IndexError. *)
Lemma run_settled (lines : list str) : settled (run lines).
Proof.
  unfold run, _iter_lines, iter_lines_from.
  destruct (iter_loop_settled lines initial_state) as [-> | [[o s] ->]];
    [now left | right; now eexists].
Qed.

(** *** What the spans of the scanner are *)

Lemma yield_Done {A} (x : A) (r : outcome (list A)) (items : list A) :
  yield x r = Done items -> exists l, r = Done l /\ items = x :: l.
Proof.
  destruct r as [l| |]; cbn; try discriminate.
  intros H; injection H as <-. now exists l.
Qed.

Lemma scan_after_items (line : str) :
  forall fuel p items,
    0 <= p ->
    scan_after fuel line p = Done items ->
    Forall (bracket_item line) items.
Proof.
  induction fuel as [|fuel IH]; intros p items Hp; [discriminate|].
  cbn [scan_after]. unfold INLINE_MATH_START_DELIM_RE.
  rewrite (search_literal_index _ _ _ inline_open_not_nil Hp).
  destruct (Py.index line INLINE_OPEN p) as [m|] eqn:Em.
  2:{ intros H; injection H as <-. constructor. }
  apply index_Some in Em as (Hm & Ho & _); [|exact Hp].
  change (dict_get DELIM_START_END_MAP INLINE_OPEN) with (Some INLINE_CLOSE).
  change (Py.len INLINE_OPEN) with 2. cbv beta iota zeta.
  destruct (Py.index line INLINE_CLOSE (m + 2)) as [j|] eqn:Ej.
  - intros H. apply yield_Done in H as (l & Hl & ->).
    assert (Hq : 0 <= m + 2) by lia.
    pose proof (index_Some _ _ _ _ Hq Ej) as (Hj & _ & _).
    constructor; [|apply (IH (j + 2)); [lia | exact Hl]].
    unfold bracket_item; cbn [start end_ inline_math].
    replace (j + 2 - 2) with j by lia.
    repeat split; [lia | exact Ho | exact Ej].
  - apply IH. lia.
Qed.

(** Before a code span: moreover the opening token ends at or before the
    start of the code span delimiter. *)
Lemma scan_before_items (line : str) (search_end_pos : Z) :
  forall fuel p items,
    0 <= p ->
    scan_before fuel line search_end_pos p = Done items ->
    Forall (fun it => bracket_item line it
                      /\ start it + 2 <= search_end_pos) items.
Proof.
  induction fuel as [|fuel IH]; intros p items Hp; [discriminate|].
  cbn [scan_before].
  destruct (p <=? search_end_pos).
  2:{ intros H; injection H as <-. constructor. }
  unfold INLINE_MATH_START_DELIM_RE.
  rewrite (search_literal_index _ _ _ inline_open_not_nil Hp).
  destruct (Py.index line INLINE_OPEN p) as [m|] eqn:Em.
  2:{ intros H; injection H as <-. constructor. }
  apply index_Some in Em as (Hm & Ho & _); [|exact Hp].
  change (dict_get DELIM_START_END_MAP INLINE_OPEN) with (Some INLINE_CLOSE).
  change (Py.len INLINE_OPEN) with 2. cbv beta iota zeta.
  destruct (m + 2 >? search_end_pos) eqn:Eg.
  { intros H; injection H as <-. constructor. }
  assert (m + 2 <= search_end_pos) by (rewrite Z.gtb_ltb in Eg;
                                        apply Z.ltb_ge in Eg; lia).
  destruct (Py.index line INLINE_CLOSE (m + 2)) as [j|] eqn:Ej.
  - intros H'. apply yield_Done in H' as (l & Hl & ->).
    assert (Hq : 0 <= m + 2) by lia.
    pose proof (index_Some _ _ _ _ Hq Ej) as (Hj & _ & _).
    constructor; [|apply (IH (j + 2)); [lia | exact Hl]].
    unfold bracket_item; cbn [start end_ inline_math].
    replace (j + 2 - 2) with j by lia.
    repeat split; [lia | exact Ho | exact Ej | assumption].
  - apply IH. lia.
Qed.

Lemma scan_line_items (line : str) :
  forall fuel pos items,
    0 <= pos ->
    scan_line fuel line pos = Done items ->
    Forall (fun it => bracket_item line it \/ gitlab_item line it) items.
Proof.
  induction fuel as [|fuel IH]; intros pos items Hp; [discriminate|].
  cbn [scan_line].
  destruct (CODE_SPAN_DELIM_RE line pos) as [[[s e] d]|] eqn:Ec.
  - apply code_span_delim_spec in Ec as (Hs & Hd); [|exact Hp].
    assert (Hl : 1 <= Py.len d)
      by (destruct Hd as [-> | ->]; unfold Py.len; simpl; lia).
    destruct (scan_before _ line s pos) as [before| |] eqn:Eb;
      cbn [bind]; try discriminate.
    apply scan_before_items in Eb; [|exact Hp].
    assert (Hbefore : Forall (fun it => bracket_item line it
                                        \/ gitlab_item line it) before).
    { eapply Forall_impl; [|exact Eb]. intros it [H _]. now left. }
    assert (K : forall r : outcome (list InlineMathItem),
               (forall l, r = Done l ->
                          Forall (fun it => bracket_item line it
                                            \/ gitlab_item line it) l) ->
               (rest <- r ;; Done (before ++ rest)) = Done items ->
               Forall (fun it => bracket_item line it
                                 \/ gitlab_item line it) items).
    { intros r Hr. destruct r as [l| |]; cbn [bind]; try discriminate.
      intros H; injection H as <-. apply Forall_app. auto. }
    apply K. clear K. intros l.
    destruct (Py.index line d (s + Py.len d)) as [i|] eqn:Ei.
    + apply index_Some in Ei as (Hi & _ & _); [|lia].
      destruct (Py.getitem line (s - 1)) as [c1|] eqn:E1; [|discriminate].
      destruct (N.eqb c1 DOLLAR) eqn:D1; [|apply IH; lia].
      destruct (Py.getitem line (i + (Py.len d - 1) + 1)) as [c2|] eqn:E2;
        [|discriminate].
      destruct (N.eqb c2 DOLLAR) eqn:D2; [|apply IH; lia].
      intros H. apply yield_Done in H as (l' & Hl' & ->).
      apply N.eqb_eq in D1 as ->. apply N.eqb_eq in D2 as ->.
      constructor;
        [|apply (IH (i + (Py.len d - 1) + Py.len d)); [lia | exact Hl']].
      right. unfold gitlab_item; cbn [start end_].
      split; [exact E1|].
      now replace (i + (Py.len d - 1) + 2 - 1)
        with (i + (Py.len d - 1) + 1) by lia.
    + apply IH. lia.
  - intros H. apply scan_after_items in H; [|exact Hp].
    eapply Forall_impl; [|exact H]. intros it Hit. now left.
Qed.

(** Every span that [iter_inline_katex] returns is of one of the two
    kinds. *)
Lemma iter_inline_katex_items (line : str) (items : list InlineMathItem) :
  iter_inline_katex line = Done items ->
  Forall (fun it => bracket_item line it \/ gitlab_item line it) items.
Proof. apply scan_line_items. lia. Qed.

(** A span that starts at an opening token has its closing token: an
    opening with no closing token after it is never reported. *)
Lemma reported_opening_is_closed
  (line : str) (items : list InlineMathItem) (it : InlineMathItem) :
  iter_inline_katex line = Done items ->
  In it items ->
  0 <= start it ->
  Py.startswith (skipn (Z.to_nat (start it)) line) INLINE_OPEN = true ->
  Py.index line INLINE_CLOSE (start it + 2) = Some (end_ it - 2).
Proof.
  intros H Hin Hs Ho. apply iter_inline_katex_items in H.
  rewrite Forall_forall in H.
  destruct (H it Hin) as [(_ & _ & Hc & _) | (Hd & _)]; [exact Hc|].
  pose proof (getitem_startswith _ _ _ _ _ Hs Hd Ho). discriminate.
Qed.

(** *** Openings without a closing token *)

Lemma unterminated_spec (line : str) :
  unterminated line = true ->
  forall k, 0 <= k ->
    Py.startswith (skipn (Z.to_nat k) line) INLINE_OPEN = true ->
    Py.index line INLINE_CLOSE (k + 2) = None.
Proof.
  unfold unterminated. intros H k Hk Ho.
  destruct (Py.index line INLINE_OPEN 0) as [i|] eqn:Ei.
  - apply index_Some in Ei as (Hi & _ & Hmin); [|lia].
    destruct (Py.index line INLINE_CLOSE (i + 2)) eqn:Ec; [discriminate|].
    assert (i <= k).
    { destruct (Z.le_gt_cases i k) as [|Hlt]; [assumption|].
      rewrite (Hmin k) in Ho by lia. discriminate. }
    apply (index_None_later _ _ (i + 2)); auto using inline_close_not_nil.
    lia.
  - rewrite (index_None _ _ _ inline_open_not_nil (Z.le_refl 0) Ei k Hk)
      in Ho.
    discriminate.
Qed.

(** The loop after the last code span yields nothing on such a line. *)
Lemma scan_after_unterminated (line : str) :
  unterminated line = true ->
  forall fuel p,
    0 <= p ->
    (Z.to_nat (Py.len line - p) < fuel)%nat ->
    scan_after fuel line p = Done [].
Proof.
  intros Hu. induction fuel as [|fuel IH]; intros p Hp Hf; [lia|].
  cbn [scan_after]. unfold INLINE_MATH_START_DELIM_RE.
  rewrite (search_literal_index _ _ _ inline_open_not_nil Hp).
  destruct (Py.index line INLINE_OPEN p) as [m|] eqn:Em; [|reflexivity].
  apply index_Some in Em as (Hm & Ho & _); [|exact Hp].
  change (dict_get DELIM_START_END_MAP INLINE_OPEN) with (Some INLINE_CLOSE).
  change (Py.len INLINE_OPEN) with 2. cbv beta iota zeta.
  rewrite (unterminated_spec _ Hu m) by (lia || assumption).
  pose proof (startswith_len _ _ Ho) as Hlen.
  change (Py.len INLINE_OPEN) with 2 in Hlen.
  unfold Py.len in Hlen. rewrite length_skipn in Hlen.
  apply IH; [lia|]. unfold Py.len in *. lia.
Qed.

(** An inline opening without a closing token after it is abandoned: on a
    line with no code span the scanner yields nothing, and raises
    nothing. *)
Lemma scanner_abandons_unterminated (line : str) :
  Py.contains [BACKTICK] line = false ->
  unterminated line = true ->
  iter_inline_katex line = Done [].
Proof.
  intros Hb Hu. unfold iter_inline_katex. cbn [scan_line].
  rewrite (no_code_span_delim _ _ Hb).
  apply scan_after_unterminated; [assumption | lia |].
  unfold Py.len. lia.
Qed.

(** The same line read while no block is open: yielded as it is. *)
Lemma step_unterminated (st : state) (line : str) :
  normal st ->
  Py.contains [BACKTICK] line = false ->
  unterminated line = true ->
  CODE_FENCE_RE line = None ->
  Py.startswith line BLOCK_OPEN = false ->
  step st line = Done (st, [line]).
Proof.
  intros (H1 & H2 & H3) Hb Hu Hf Ho. unfold step.
  unfold CODE_FENCE_MATH_START_RE, BLOCK_MATH_START_DELIM_RE.
  rewrite H1, H2, H3, Hf, Ho, (scanner_abandons_unterminated _ Hb Hu).
  reflexivity.
Qed.

(** *** A line with one bracket span *)

(** The loop after the last code span when no opening token is left. *)
Lemma scan_after_no_opening (fuel : nat) (line : str) (p : Z) :
  0 <= p ->
  Py.index line INLINE_OPEN p = None ->
  scan_after (S fuel) line p = Done [].
Proof.
  intros Hp H. cbn [scan_after]. unfold INLINE_MATH_START_DELIM_RE.
  now rewrite (search_literal_index _ _ _ inline_open_not_nil Hp), H.
Qed.

(** The spans of a line that holds one bracket pair and no backtick: the
    one span of the pair. *)
Lemma single_bracket_span (pre body post : str) :
  Py.contains [BACKTICK] (pre ++ INLINE_OPEN ++ body ++ INLINE_CLOSE ++ post)
  = false ->
  Py.contains INLINE_OPEN pre = false ->
  Py.contains INLINE_CLOSE body = false ->
  Py.contains INLINE_OPEN post = false ->
  iter_inline_katex (pre ++ INLINE_OPEN ++ body ++ INLINE_CLOSE ++ post) =
  Done [mkItem (Py.len pre) (Py.len pre + 2 + Py.len body + 2) body].
Proof.
  intros Hb Hpre Hbody Hpost.
  set (line := pre ++ INLINE_OPEN ++ body ++ INLINE_CLOSE ++ post) in *.
  pose proof (len_nonneg pre) as Lp. pose proof (len_nonneg body) as Lb.
  pose proof (len_nonneg post) as Lq.
  assert (Ll : Py.len line = Py.len pre + 2 + Py.len body + 2 + Py.len post).
  { unfold line. rewrite !len_app.
    change (Py.len INLINE_OPEN) with 2. change (Py.len INLINE_CLOSE) with 2.
    lia. }
  (* the first opening token is the one after [pre] *)
  assert (Eo : Py.index line INLINE_OPEN 0 = Some (Py.len pre)).
  { apply index_first; [discriminate | lia | |].
    - unfold Py.len, line. rewrite Nat2Z.id, skipn_app, skipn_all,
        Nat.sub_diag. cbn [skipn app]. apply startswith_app.
    - intros k Hk. unfold line.
      apply (two_char_not_across BACKSLASH 40%N);
        [discriminate | exact Hpre | unfold Py.len in *; lia]. }
  (* the first closing token after it is the one after [body] *)
  assert (Ec : Py.index line INLINE_CLOSE (Py.len pre + 2)
               = Some (Py.len pre + 2 + Py.len body)).
  { apply index_first; [discriminate | lia | |].
    - unfold line. rewrite !app_assoc, <- (app_assoc _ INLINE_CLOSE post).
      replace (Z.to_nat (Py.len pre + 2 + Py.len body))
        with (List.length ((pre ++ INLINE_OPEN) ++ body)).
      2:{ rewrite !length_app. unfold Py.len. simpl List.length. lia. }
      rewrite skipn_app, skipn_all, Nat.sub_diag. cbn [skipn app].
      apply startswith_app.
    - intros k Hk. unfold line. rewrite app_assoc.
      replace (Z.to_nat k)
        with (Z.to_nat (k - Py.len pre - 2)
              + List.length (pre ++ INLINE_OPEN))%nat.
      2:{ rewrite length_app. unfold Py.len in *. simpl List.length. lia. }
      rewrite <- skipn_skipn, skipn_app, skipn_all, Nat.sub_diag.
      cbn [skipn app].
      apply (two_char_not_across BACKSLASH 41%N);
        [discriminate | exact Hbody | unfold Py.len in *; lia]. }
  (* no opening token after the closing one *)
  assert (En : Py.index line INLINE_OPEN (Py.len pre + 2 + Py.len body + 2)
               = None).
  { destruct (Py.index line INLINE_OPEN (Py.len pre + 2 + Py.len body + 2))
      as [j|] eqn:E; [|reflexivity].
    apply index_Some in E as (Hj & Ho & _); [|lia].
    unfold Py.contains in Hpost.
    destruct (Py.find_at INLINE_OPEN post 0) eqn:Ef; [discriminate|].
    pose proof (find_at_None _ _ _ Ef
                  (Z.to_nat (j - (Py.len pre + 2 + Py.len body + 2)))) as Hn.
    unfold line in Ho.
    rewrite !app_assoc, <- !(app_assoc _ _ post) in Ho.
    rewrite !app_assoc in Ho.
    replace (Z.to_nat j)
      with (Z.to_nat (j - (Py.len pre + 2 + Py.len body + 2))
            + List.length (((pre ++ INLINE_OPEN) ++ body) ++ INLINE_CLOSE))%nat
      in Ho.
    2:{ rewrite !length_app. unfold Py.len in *. simpl List.length. lia. }
    rewrite <- skipn_skipn, skipn_app, skipn_all, Nat.sub_diag in Ho.
    cbn [skipn app] in Ho. congruence. }
  unfold iter_inline_katex. cbn [scan_line].
  rewrite (no_code_span_delim _ _ Hb). cbn [scan_after].
  unfold INLINE_MATH_START_DELIM_RE.
  rewrite (search_literal_index _ _ _ inline_open_not_nil (Z.le_refl 0)), Eo.
  change (dict_get DELIM_START_END_MAP INLINE_OPEN) with (Some INLINE_CLOSE).
  change (Py.len INLINE_OPEN) with 2. cbv beta iota zeta. rewrite Ec.
  assert (El : List.length line = S (pred (List.length line))).
  { unfold Py.len in Ll. lia. }
  assert (Hq : 0 <= Py.len pre + 2 + Py.len body + 2) by lia.
  rewrite El, (scan_after_no_opening _ _ _ Hq En).
  cbn [yield bind]. do 3 f_equal.
  unfold line.
  replace (Py.len pre + 2) with (Py.len (pre ++ INLINE_OPEN))
    by (rewrite len_app; reflexivity).
  rewrite app_assoc. apply slice_app_mid.
Qed.


(** * The claims *)

(** C1, as the code has it.  The text that replaces an inline span is the
    escaper applied to the whole markup, body and tokens: the body is
    escaped, and the tokens around it come out with two backslashes.
    Each span of a line is replaced by that text, the later spans first.  A
    line read while no block is open that holds no backtick and one
    bracket pair, with the body [body] between the text [pre] and the text
    [post], has that pair as its one span and is yielded as [pre], the
    escaped markup of [body], [post]; the line of the scenario becomes the
    markup with two backslashes before each bracket. *)
Theorem C1_inline_markup_escaped_whole (st : state) (pre body post : str) :
  normal st ->
  Py.contains [BACKTICK] (pre ++ lit "\(" ++ body ++ lit "\)" ++ post)
  = false ->
  Py.contains (lit "\(") pre = false ->
  Py.contains (lit "\)") body = false ->
  Py.contains (lit "\(") post = false ->
  CODE_FENCE_RE (pre ++ lit "\(" ++ body ++ lit "\)" ++ post) = None ->
  Py.startswith (pre ++ lit "\(" ++ body ++ lit "\)" ++ post) BLOCK_OPEN
  = false ->
  (forall b,
      _enclose_inline_math b =
      lit "<span class=" ++ [QUOTE] ++ lit "math-inline" ++ [QUOTE]
          ++ lit ">\\(" ++ escape_backslashes b ++ lit "\\)</span>")
  /\ (forall line code codes,
         replace_spans line (code :: codes) =
         Py.slice_to (replace_spans line codes) (start code)
           ++ _enclose_inline_math (inline_math code)
           ++ Py.slice_from (replace_spans line codes) (end_ code))
  /\ iter_inline_katex (pre ++ lit "\(" ++ body ++ lit "\)" ++ post) =
     Done [mkItem (Py.len pre) (Py.len pre + 2 + Py.len body + 2) body]
  /\ step st (pre ++ lit "\(" ++ body ++ lit "\)" ++ post) =
     Done (st, [pre ++ lit "<span class=" ++ [QUOTE] ++ lit "math-inline"
                    ++ [QUOTE] ++ lit ">\\(" ++ escape_backslashes body
                    ++ lit "\\)</span>" ++ post])
  /\ run [lit "Formula: \(E=mc^2\)"] =
     Done [lit "Formula: <span class=" ++ [QUOTE] ++ lit "math-inline"
               ++ [QUOTE] ++ lit ">\\(E=mc^2\\)</span>"].
Proof.
  intros (H1 & H2 & H3) Hb Hpre Hbody Hpost Hf Ho.
  pose proof (single_bracket_span pre body post Hb Hpre Hbody Hpost) as Hs.
  change INLINE_OPEN with (lit "\(") in Hs.
  change INLINE_CLOSE with (lit "\)") in Hs.
  split; [exact enclose_inline_math_eq|].
  split.
  { intros line code codes. unfold replace_spans. cbn [rev].
    now rewrite fold_left_app. }
  split; [exact Hs|].
  split; [|vm_compute; reflexivity].
  unfold step, CODE_FENCE_MATH_START_RE, BLOCK_MATH_START_DELIM_RE.
  rewrite H1, H2, H3, Hf, Ho, Hs. cbn [bind].
  unfold replace_spans. cbn [rev app fold_left start end_ inline_math].
  rewrite slice_to_app, enclose_inline_math_eq.
  replace (Py.len pre + 2 + Py.len body + 2)
    with (Py.len (pre ++ lit "\(" ++ body ++ lit "\)"))
    by (rewrite !len_app; change (Py.len (lit "\(")) with 2;
        change (Py.len (lit "\)")) with 2; lia).
  replace (pre ++ lit "\(" ++ body ++ lit "\)" ++ post)
    with ((pre ++ lit "\(" ++ body ++ lit "\)") ++ post)
    by (now rewrite <- !app_assoc).
  rewrite slice_from_app. now rewrite <- !app_assoc.
Qed.

Lemma C1_inline_markup_escaped_whole_witness :
  step initial_state (lit "Formula: \(E=mc^2\)") =
  Done (initial_state,
        [lit "Formula: <span class=" ++ [QUOTE] ++ lit "math-inline"
             ++ [QUOTE] ++ lit ">\\(E=mc^2\\)</span>"])
  /\ step initial_state (lit "set \(\{x\}\), done") =
     Done (initial_state,
           [lit "set <span class=" ++ [QUOTE] ++ lit "math-inline"
                ++ [QUOTE] ++ lit ">\\(\\{x\\}\\)</span>, done"]).
Proof.
  split.
  - exact (proj1 (proj2 (proj2 (proj2
             (C1_inline_markup_escaped_whole initial_state
                (lit "Formula: ") (lit "E=mc^2") []
                (conj eq_refl (conj eq_refl eq_refl))
                eq_refl eq_refl eq_refl eq_refl eq_refl eq_refl))))).
  - exact (proj1 (proj2 (proj2 (proj2
             (C1_inline_markup_escaped_whole initial_state
                (lit "set ") (lit "\{x\}") (lit ", done")
                (conj eq_refl (conj eq_refl eq_refl))
                eq_refl eq_refl eq_refl eq_refl eq_refl eq_refl))))).
Defined.

(** C1 as stated fails on its own scenario: the output is not the markup
    with single backslashes. *)
Lemma C1_counterexample :
  run [lit "Formula: \(E=mc^2\)"] <>
  Done [lit "Formula: <span class=" ++ [QUOTE] ++ lit "math-inline"
            ++ [QUOTE] ++ lit ">\(E=mc^2\)</span>"].
Proof. vm_compute. discriminate. Qed.

(** C2 fails: a code span with a dollar before it and nothing after it
    makes the scanner read [line[end + 1]] past the end of the line; the
    IndexError leaves [iter_inline_katex] and [run], whatever the other
    lines are.  That exception is the one way [run] fails: on every list
    of lines it raises IndexError or returns a list of lines. *)
Theorem C2_scanner_raises_IndexError :
  iter_inline_katex (lit "$`a`") = Raised IndexError
  /\ run [lit "$`a`"] = Raised IndexError
  /\ run [lit "fine"; lit "$`a`"; lit "fine"] = Raised IndexError
  /\ forall lines,
      run lines = Raised IndexError \/ exists out, run lines = Done out.
Proof.
  split; [reflexivity|]. split; [reflexivity|]. split; [reflexivity|].
  exact run_settled.
Qed.

(** C3 fails.  With two backticks the inner text starts one character
    after the start of the opening run, so it keeps the second backtick;
    and a code span at offset 0 has no character before it, yet
    [line[start - 1]] is then the last character of the line, and a line
    that ends with a dollar gets a span that starts at offset -1. *)
Theorem C3_gitlab_span_off_by_one :
  iter_inline_katex (lit "$``a``$") = Done [mkItem 0 7 (lit "`a")]
  /\ iter_inline_katex (lit "`a`$") = Done [mkItem (-1) 4 (lit "a")]
  /\ run [lit "`a`$"] =
     Done [lit "`a`<span class=" ++ [QUOTE] ++ lit "math-inline" ++ [QUOTE]
               ++ lit ">\\(a\\)</span>"].
Proof. repeat split. Qed.

(** C4 fails: the opening token is looked for before the code span, the
    closing token in the whole rest of the line, so a bracket span can run
    across a code span. *)
Theorem C4_bracket_span_across_code_span :
  CODE_SPAN_DELIM_RE (lit "\(a `b` c\)") 0 = Some (4, 5, [BACKTICK])
  /\ iter_inline_katex (lit "\(a `b` c\)") =
     Done [mkItem 0 11 (lit "a `b` c")]
  /\ iter_inline_katex (lit "\(a $`b`$ c\)") =
     Done [mkItem 0 13 (lit "a $`b`$ c"); mkItem 4 9 (lit "b")].
Proof. repeat split. Qed.

(** C5, as the code has it.  A line that opens a fence while no block is
    open starts a fenced math block exactly when the text after the opening
    run begins with [math] (it need not be equal to it); the line is then
    buffered and nothing is yielded.  Any other fence starts a plain fenced
    block: the opening line and every line up to and including the one that
    closes the fence are yielded unchanged. *)
Theorem C5_math_fence_by_prefix (st : state) (line ws tok rest : str) :
  normal st ->
  CODE_FENCE_RE line = Some (ws, tok, rest) ->
  line = ws ++ tok ++ rest
  /\ is_fence_token tok
  /\ exists st',
      if Py.startswith rest (lit "math")
      then step st line = Done (st', [])
           /\ is_in_code_fence_math st' = true
           /\ is_in_code_fence st' = false
           /\ block_math_lines st' = block_math_lines st ++ [line]
      else step st line = Done (st', [line])
           /\ is_in_code_fence_math st' = false
           /\ is_in_code_fence st' = true
           /\ forall body l,
               forallb (fun x => negb (closes_fence (ws ++ tok) x)) body
               = true ->
               exists st'',
                 iter_loop st' (body ++ [l]) = Done (body ++ [l], st'').
Proof.
  intros Hn E.
  destruct (CODE_FENCE_RE_spec _ _ _ _ E) as (Hl & _ & Ht).
  split; [exact Hl|]. split; [exact Ht|].
  rewrite (step_open_fence _ _ _ _ _ Hn E).
  destruct (Py.startswith rest (lit "math")).
  - eexists. repeat split.
  - eexists. split; [reflexivity|]. split; [reflexivity|].
    split; [reflexivity|]. intros body l Hb.
    rewrite iter_loop_app, (iter_loop_in_code_fence _ _ _ _ _ _ Hb).
    cbn [bind snd fst iter_loop]. unfold step. cbn [is_in_code_fence].
    destruct (str_eqb _ _); cbn; eexists; reflexivity.
Qed.

Lemma C5_math_fence_by_prefix_witness :
  exists st',
    step initial_state (lit "~~~~math") = Done (st', [])
    /\ is_in_code_fence_math st' = true.
Proof.
  destruct (C5_math_fence_by_prefix initial_state (lit "~~~~math")
              [] (lit "~~~~") (lit "math")) as (_ & _ & st' & H).
  - repeat split.
  - reflexivity.
  - exists st'. simpl in H. tauto.
Defined.

(** C5 as stated fails: the info string of this fence is [mathx], not
    [math], and the fence starts a fenced math block all the same. *)
Lemma C5_counterexample :
  CODE_FENCE_RE (lit "```mathx") = Some ([], lit "```", lit "mathx")
  /\ lit "mathx" <> lit "math"
  /\ exists st',
      step initial_state (lit "```mathx") = Done (st', [])
      /\ is_in_code_fence_math st' = true
      /\ is_in_code_fence st' = false.
Proof.
  split; [reflexivity|]. split; [discriminate|].
  eexists. repeat split.
Qed.

(** C6, as the code has it.  After a fence opened while no block was open,
    and lines that did not close it, a line closes the fence exactly when
    it is the indent of the opening line, then the opening run itself (the
    same character, the same number of times), then whitespace only.  A
    line that does not close the fence leaves it open, with the same
    expected close. *)
Theorem C6_fence_closes_on_same_run
  (st : state) (o ws tok rest : str) (body : list str) (l : str) :
  normal st ->
  CODE_FENCE_RE o = Some (ws, tok, rest) ->
  forallb (fun x => negb (closes_fence (ws ++ tok) x)) body = true ->
  exists out st1 out2 st2,
    iter_loop st (o :: body) = Done (out, st1)
    /\ in_fence st1 (ws ++ tok)
    /\ step st1 l = Done (st2, out2)
    /\ (normal st2 <->
        exists trail,
          l = ws ++ tok ++ trail /\ forallb Py.isspace trail = true)
    /\ (normal st2 \/ in_fence st2 (ws ++ tok)).
Proof.
  intros Hn E Hb.
  destruct (CODE_FENCE_RE_spec _ _ _ _ E) as (_ & _ & Ht).
  pose proof (fence_close_iff ws tok l Ht) as Hc.
  assert (H1 : exists out st1,
             iter_loop st (o :: body) = Done (out, st1)
             /\ in_fence st1 (ws ++ tok)).
  { cbn [iter_loop]. rewrite (step_open_fence _ _ _ _ _ Hn E).
    destruct (Py.startswith rest (lit "math")); cbn [bind fst snd].
    - rewrite (iter_loop_in_fence_math _ _ _ _ _ Hb). cbn [bind fst snd].
      do 2 eexists. split; [reflexivity|]. unfold in_fence. cbn. auto.
    - rewrite (iter_loop_in_code_fence _ _ _ _ _ _ Hb). cbn [bind fst snd].
      do 2 eexists. split; [reflexivity|]. unfold in_fence. cbn. auto. }
  destruct H1 as (out & st1 & H1 & Hf).
  destruct (step_in_fence st1 (ws ++ tok) l Hf) as (st2 & out2 & H2 & Hs).
  exists out, st1, out2, st2. repeat (split; [assumption|]).
  unfold closes_fence in Hs.
  destruct (str_eqb (Py.rstrip l) (ws ++ tok)).
  - split; [|now left]. split; [intros _; now apply Hc | intros _; exact Hs].
  - split; [|now right]. split.
    + intros Hn2. destruct (normal_not_in_fence _ _ Hn2 Hs).
    + intros H. apply Hc in H. discriminate H.
Qed.

Lemma C6_fence_closes_on_same_run_witness :
  exists out st1 out2 st2,
    iter_loop initial_state [lit "  ~~~"; lit "x"] = Done (out, st1)
    /\ step st1 (lit "  ~~~ ") = Done (st2, out2)
    /\ normal st2.
Proof.
  destruct (C6_fence_closes_on_same_run initial_state (lit "  ~~~")
              (lit "  ") (lit "~~~") [] [lit "x"] (lit "  ~~~ "))
    as (out & st1 & out2 & st2 & H1 & _ & H2 & H3 & _).
  - repeat split.
  - reflexivity.
  - reflexivity.
  - exists out, st1, out2, st2. split; [exact H1|]. split; [exact H2|].
    apply H3. exists (lit " "). split; reflexivity.
Defined.

(** C6 as stated fails: after the fence [```], the line [````] is the same
    indent and the same character repeated at least as many times, alone
    on its line, and it does not close the fence. *)
Lemma C6_counterexample :
  lit "````" = [] ++ repeat BACKTICK 4
  /\ CODE_FENCE_RE (lit "```") = Some ([], repeat BACKTICK 3, [])
  /\ exists out st1 out2 st2,
      iter_loop initial_state [lit "```"] = Done (out, st1)
      /\ step st1 (lit "````") = Done (st2, out2)
      /\ is_in_code_fence st2 = true.
Proof.
  split; [reflexivity|]. split; [reflexivity|].
  do 4 eexists. split; [reflexivity|]. split; reflexivity.
Qed.

(** C7, as the code has it.  While no block is open, a line whose first
    two characters are the token of a bracket block (at offset 0, with no
    whitespace before it) opens a bracket block: the line starts the
    buffer and nothing is yielded.  Any other line leaves the bracket
    block flag unset. *)
Theorem C7_bracket_block_at_offset_0 (st : state) (line : str) :
  ready st ->
  if Py.startswith line BLOCK_OPEN
  then step st line =
       Done (mkState false false true (lit "\]") (lit "\]") [line], [])
  else forall st' out,
      step st line = Done (st', out) -> is_in_math_block st' = false.
Proof.
  intros (Hn & Hb & Hm).
  destruct (Py.startswith line BLOCK_OPEN) eqn:E.
  - rewrite (step_open_bracket _ _ Hn E), Hb, Hm. reflexivity.
  - destruct Hn as (H1 & H2 & H3). intros st' out. unfold step.
    rewrite H1, H2, H3. unfold BLOCK_MATH_START_DELIM_RE. rewrite E.
    destruct (CODE_FENCE_MATH_START_RE line) as [[p t]|].
    { intros H; injection H as <- _. reflexivity. }
    destruct (CODE_FENCE_RE line) as [[[p t] r]|].
    { intros H; injection H as <- _. reflexivity. }
    destruct (iter_inline_katex line); cbn [bind]; try discriminate.
    intros H; injection H as <- _. exact H3.
Qed.

Lemma C7_bracket_block_at_offset_0_witness :
  ready initial_state
  /\ step initial_state (lit "\[ a") =
     Done (mkState false false true (lit "\]") (lit "\]") [lit "\[ a"], []).
Proof.
  split; [exact initial_ready|].
  exact (C7_bracket_block_at_offset_0 initial_state (lit "\[ a")
           initial_ready).
Defined.

(** C7 as stated fails: this line is no fence opening and its first
    character that is not whitespace begins the token, yet the state stays
    Normal and the line is yielded as it is. *)
Lemma C7_counterexample :
  CODE_FENCE_RE (lit "  \[") = None
  /\ Py.startswith (Py.lstrip (lit "  \[")) BLOCK_OPEN = true
  /\ step initial_state (lit "  \[") = Done (initial_state, [lit "  \["]).
Proof. repeat split. Qed.




(** C9 fails: an inline opening with no closing token after it is not
    abandoned on a line that also holds, after it, a code span with a
    dollar before it and the end of the line after it.  The scanner reads
    [line[end + 1]] past the end of the line; the IndexError leaves
    [iter_inline_katex] and [run], and the line is not returned.  The
    document of the scenario, which has no code span, is returned as it
    is. *)
Theorem C9_unterminated_opening_raises :
  Py.index (lit "\(no close $`a`") INLINE_OPEN 0 = Some 0
  /\ Py.index (lit "\(no close $`a`") INLINE_CLOSE 2 = None
  /\ Py.getitem (lit "\(no close $`a`") 15 = None
  /\ iter_inline_katex (lit "\(no close $`a`") = Raised IndexError
  /\ run [lit "\(no close $`a`"] = Raised IndexError
  /\ run [lit "text"; lit "\(no close $`a`"] = Raised IndexError
  /\ run [lit "\(no close"] = Done [lit "\(no close"].
Proof. repeat split. Qed.

(** C10.  A bracket block opened while no block is open, its lines, and
    the first later line that contains the closing token collapse into one
    output line whose body is the lines strictly between the two, joined
    by newlines and right-trimmed.  The output is the same whatever
    follows the token on the opening line and whatever the closing line
    holds besides its token: neither line reaches the output. *)
Theorem C10_bracket_block_body
  (st : state) (o : str) (mid : list str) (c joined body : str) :
  ready st ->
  Py.startswith o BLOCK_OPEN = true ->
  forallb (fun l => negb (closes_bracket l)) mid = true ->
  closes_bracket c = true ->
  joined_by_newline mid joined ->
  right_trimmed joined body ->
  (exists st',
      iter_loop st (o :: mid ++ [c]) =
      Done ([lit "<div class=" ++ [QUOTE] ++ lit "math-block" ++ [QUOTE]
               ++ lit ">\[" ++ [NEWLINE] ++ body ++ [NEWLINE]
               ++ lit "\]</div>"], st')
      /\ ready st')
  /\ (forall o' c',
        Py.startswith o' BLOCK_OPEN = true ->
        closes_bracket c' = true ->
        exists st1 st2 out,
          iter_loop st (o :: mid ++ [c]) = Done (out, st1)
          /\ iter_loop st (o' :: mid ++ [c']) = Done (out, st2)).
Proof.
  intros (Hn & Hb & Hm) Ho Hmid Hc Hj Ht.
  apply joined_unique in Hj. apply rstrip_trimmed in Ht.
  assert (G : forall o1 c1,
             Py.startswith o1 BLOCK_OPEN = true ->
             closes_bracket c1 = true ->
             iter_loop st (o1 :: mid ++ [c1]) =
             Done ([MATH_BLOCK_HEAD ++ body ++ MATH_BLOCK_TAIL],
                   mkState false false false (lit "\]") (lit "\]") [])).
  { intros o1 c1 Ho1 Hc1.
    cbn [iter_loop].
    rewrite (step_open_bracket _ _ Hn Ho1), Hb, Hm.
    cbn [bind fst snd app].
    rewrite iter_loop_app, (iter_loop_in_math_block _ _ _ Hmid).
    cbn [bind fst snd app iter_loop]. unfold step.
    cbn [is_in_code_fence is_in_code_fence_math expected_code_fence_close
         block_math_lines is_in_math_block expected_math_block_close].
    unfold closes_bracket in Hc1. rewrite Hc1.
    unfold _enclose_non_fence_block_math.
    change ((o1 :: mid) ++ [c1]) with (o1 :: mid ++ [c1]).
    rewrite slice_interior, Hj, Ht. reflexivity. }
  split.
  - eexists. split; [apply (G o c Ho Hc)|]. repeat split.
  - intros o' c' Ho' Hc'. do 3 eexists.
    split; [apply (G o c Ho Hc) | apply (G o' c' Ho' Hc')].
Qed.

Lemma C10_bracket_block_body_witness :
  exists st',
    iter_loop initial_state
      [lit "\[ a"; lit "x = \{1\}  "; []; lit "  + y"; lit "  ";
       lit "b \] c"] =
    Done ([lit "<div class=" ++ [QUOTE] ++ lit "math-block" ++ [QUOTE]
             ++ lit ">\[" ++ [NEWLINE]
             ++ (lit "x = \{1\}  " ++ [NEWLINE] ++ [NEWLINE] ++ lit "  + y")
             ++ [NEWLINE] ++ lit "\]</div>"], st')
    /\ ready st'.
Proof.
  apply (C10_bracket_block_body initial_state (lit "\[ a")
           [lit "x = \{1\}  "; []; lit "  + y"; lit "  "] (lit "b \] c")
           (lit "x = \{1\}  " ++ [NEWLINE] ++ [NEWLINE] ++ lit "  + y"
              ++ [NEWLINE] ++ lit "  ")
           (lit "x = \{1\}  " ++ [NEWLINE] ++ [NEWLINE] ++ lit "  + y")).
  - exact initial_ready.
  - reflexivity.
  - reflexivity.
  - reflexivity.
  - reflexivity.
  - split; [reflexivity|]. exists ([NEWLINE] ++ lit "  ").
    split; reflexivity.
Defined.

(** * Further properties of the code *)

(** ** The escaper *)

Lemma escapable_not_backslash (c : char) :
  escapable c = true -> N.eqb c BACKSLASH = false.
Proof.
  intros H. destruct (N.eqb c BACKSLASH) eqn:E; [|reflexivity].
  apply N.eqb_eq in E. subst c. discriminate H.
Qed.

(** The two cases of one turn of the escaper. *)
Lemma escape_match (d : char) (rest : str) :
  escapable d = true ->
  escape_backslashes (BACKSLASH :: d :: rest) =
  BACKSLASH :: BACKSLASH :: d :: escape_backslashes rest.
Proof. intros H. cbn [escape_backslashes]. now rewrite N.eqb_refl, H. Qed.

Lemma escape_no_match (c : char) (rest : str) :
  (N.eqb c BACKSLASH && starts_escapable rest) = false ->
  escape_backslashes (c :: rest) = c :: escape_backslashes rest.
Proof.
  cbn [escape_backslashes].
  destruct (N.eqb c BACKSLASH) eqn:E; [|reflexivity].
  destruct rest as [|d rest]; [reflexivity|].
  cbn [andb starts_escapable]. now intros ->.
Qed.

(** An induction that follows the escaper: a match takes two characters,
    anything else one. *)
Lemma escape_ind (P : str -> Prop) :
  P [] ->
  (forall (d : char) (rest : str),
      escapable d = true -> P rest -> P (BACKSLASH :: d :: rest)) ->
  (forall (c : char) (rest : str),
      (N.eqb c BACKSLASH && starts_escapable rest) = false ->
      P rest -> P (c :: rest)) ->
  forall text, P text.
Proof.
  intros Hnil Hm Hn text.
  remember (List.length text) as n eqn:Hlen.
  revert text Hlen. induction n as [n IH] using lt_wf_ind. intros text Hlen.
  destruct text as [|c rest]; [exact Hnil|].
  destruct (N.eqb c BACKSLASH && starts_escapable rest) eqn:E.
  - apply andb_true_iff in E as [Ec Er]. apply N.eqb_eq in Ec as ->.
    destruct rest as [|d rest]; [discriminate|]. cbn in Er.
    apply Hm; [exact Er|].
    apply (IH (List.length rest)); [simpl in Hlen; lia | reflexivity].
  - apply Hn; [exact E|].
    apply (IH (List.length rest)); [simpl in Hlen; lia | reflexivity].
Qed.

Lemma escape_length_bounds (text : str) :
  Py.len text <= Py.len (escape_backslashes text)
  /\ 2 * Py.len (escape_backslashes text) <= 3 * Py.len text.
Proof.
  induction text as [|d rest Hd IH|c rest Hc IH] using escape_ind.
  - unfold Py.len; simpl; lia.
  - rewrite (escape_match _ _ Hd). unfold Py.len in *.
    cbn [List.length]. lia.
  - rewrite (escape_no_match _ _ Hc). unfold Py.len in *.
    cbn [List.length]. lia.
Qed.

(** X1.  The escaper only adds backslashes: without its backslashes the
    escaped text is the text without its backslashes, and the escaped text
    is at least as long as the text and at most one and a half times as
    long. *)
Theorem escape_only_adds_backslashes (text : str) :
  filter not_backslash (escape_backslashes text) = filter not_backslash text
  /\ Py.len text <= Py.len (escape_backslashes text)
  /\ 2 * Py.len (escape_backslashes text) <= 3 * Py.len text.
Proof.
  split; [|apply escape_length_bounds].
  induction text as [|d rest Hd IH|c rest Hc IH] using escape_ind.
  - reflexivity.
  - rewrite (escape_match _ _ Hd).
    pose proof (escapable_not_backslash _ Hd) as Hnb.
    assert (Hb : not_backslash BACKSLASH = false) by reflexivity.
    assert (Hn : not_backslash d = true)
      by (unfold not_backslash; now rewrite Hnb).
    cbn [filter]. rewrite Hb, Hn. now rewrite IH.
  - rewrite (escape_no_match _ _ Hc). cbn [filter]. now rewrite IH.
Qed.

Lemma ends_with_backslash_cons (c : char) (rest : str) :
  rest <> [] ->
  ends_with_backslash (c :: rest) = ends_with_backslash rest.
Proof.
  intros H. unfold ends_with_backslash. cbn [rev].
  destruct (rev rest) as [|x l] eqn:E; [|reflexivity].
  apply (f_equal (@rev char)) in E. rewrite rev_involutive in E.
  contradiction.
Qed.

Lemma starts_escapable_app (rest b : str) :
  rest <> [] -> starts_escapable (rest ++ b) = starts_escapable rest.
Proof. destruct rest; [contradiction | reflexivity]. Qed.

(** X2.  The escaper goes through a concatenation exactly when no match
    lies across the cut: the escaped [a ++ b] is the escaped [a] followed
    by the escaped [b] unless [a] ends with a backslash and [b] starts
    with a character of the class. *)
Theorem escape_app_iff (a b : str) :
  escape_backslashes (a ++ b) = escape_backslashes a ++ escape_backslashes b
  <-> (ends_with_backslash a && starts_escapable b) = false.
Proof.
  induction a as [|d rest Hd IH|c rest Hc IH] using escape_ind.
  - split; reflexivity.
  - cbn [app]. rewrite (escape_match _ _ Hd), (escape_match _ _ Hd).
    cbn [app].
    assert (He : ends_with_backslash (BACKSLASH :: d :: rest)
                 = ends_with_backslash rest).
    { rewrite ends_with_backslash_cons by discriminate.
      destruct rest as [|x l].
      - unfold ends_with_backslash. cbn.
        apply (escapable_not_backslash _ Hd).
      - apply ends_with_backslash_cons. discriminate. }
    rewrite He, <- IH. split; [intros H; now injection H | now intros ->].
  - destruct rest as [|x l].
    + cbn [app]. assert (E1 : escape_backslashes [c] = [c]).
      { cbn. now destruct (N.eqb c BACKSLASH). }
      rewrite E1. cbn [app].
      unfold ends_with_backslash. cbn [rev app].
      destruct (N.eqb c BACKSLASH && starts_escapable b) eqn:E.
      * apply andb_true_iff in E as [Ec Eb]. apply N.eqb_eq in Ec as ->.
        destruct b as [|d b']; [discriminate|]. cbn in Eb.
        rewrite (escape_match _ _ Eb).
        rewrite (escape_no_match d b')
          by (now rewrite (escapable_not_backslash _ Eb)).
        split; [|discriminate]. intros H. injection H as H _.
        rewrite <- H in Eb. discriminate Eb.
      * rewrite (escape_no_match _ _ E). split; reflexivity.
    + assert (Hx : (x :: l) <> []) by discriminate.
      cbn [app] in *.
      rewrite (ends_with_backslash_cons c (x :: l) Hx), <- IH.
      rewrite (escape_no_match c (x :: l ++ b)) by exact Hc.
      rewrite (escape_no_match _ _ Hc). cbn [app].
      split; [intros H; now injection H | now intros ->].
Qed.

Lemma has_escape_match_tail (c : char) (rest : str) :
  has_escape_match rest -> has_escape_match (c :: rest).
Proof. intros (i & d & H1 & H2 & H3). now exists (S i), d. Qed.

Lemma escape_match_longer (text : str) :
  has_escape_match text ->
  Py.len text < Py.len (escape_backslashes text).
Proof.
  induction text as [|d rest Hd IH|c rest Hc IH] using escape_ind.
  - intros ([|i] & d & H & _); discriminate H.
  - intros _. rewrite (escape_match _ _ Hd).
    pose proof (proj1 (escape_length_bounds rest)).
    unfold Py.len in *. cbn [List.length]. lia.
  - intros ([|i] & d & H1 & H2 & H3).
    + cbn in H1, H2. injection H1 as ->.
      destruct rest as [|x l]; [discriminate|]. cbn in H2.
      injection H2 as ->. cbn [starts_escapable] in Hc.
      rewrite N.eqb_refl, H3 in Hc. discriminate.
    + rewrite (escape_no_match _ _ Hc).
      assert (Hm : has_escape_match rest) by now exists i, d.
      specialize (IH Hm). unfold Py.len in *. cbn [List.length]. lia.
Qed.

(** X3.  The escaper returns its text unchanged exactly when the text
    holds no backslash followed by a character of the class. *)
Theorem escape_fixed_iff_no_match (text : str) :
  escape_backslashes text = text <-> ~ has_escape_match text.
Proof.
  split.
  - intros E H. apply escape_match_longer in H. rewrite E in H. lia.
  - induction text as [|d rest Hd IH|c rest Hc IH] using escape_ind.
    + reflexivity.
    + intros H. exfalso. apply H. now exists 0%nat, d.
    + intros H. rewrite (escape_no_match _ _ Hc). f_equal. apply IH.
      intros Hm. apply H. now apply has_escape_match_tail.
Qed.

(** ** The fence pattern *)

Lemma span_space_app (ws r : str) :
  forallb Py.isspace ws = true ->
  starts_space r = false ->
  span_space (ws ++ r) = (ws, r).
Proof.
  intros Hws Hr. induction ws as [|c ws IH]; cbn [app].
  - destruct r as [|d r]; [reflexivity|]. cbn in *. now rewrite Hr.
  - cbn in *. apply andb_true_iff in Hws as [-> Hws].
    now rewrite (IH Hws).
Qed.

Lemma span_char_repeat (c : char) (n : nat) (rest : str) :
  Py.startswith rest [c] = false ->
  span_char c (repeat c n ++ rest) = (repeat c n, rest).
Proof.
  intros Hr. induction n as [|n IH]; cbn [repeat app].
  - destruct rest as [|d rest]; [reflexivity|].
    cbn [Py.startswith] in Hr.
    apply andb_false_iff in Hr as [Hr|Hr]; [|destruct rest; discriminate].
    cbn. now rewrite N.eqb_sym, Hr.
  - cbn. now rewrite N.eqb_refl, IH.
Qed.

(** X13.  What [CODE_FENCE_RE] matches and captures: a line opens a fence
    exactly when it is whitespace, then a run of three or more backticks
    or of three or more tildes, then a rest.  Group 1 is all the leading
    whitespace and group 2 the whole run: the rest does not start with
    the character of the run. *)
Theorem CODE_FENCE_RE_iff (line ws tok rest : str) :
  CODE_FENCE_RE line = Some (ws, tok, rest) <->
  line = ws ++ tok ++ rest
  /\ forallb Py.isspace ws = true
  /\ exists c n,
      (c = BACKTICK \/ c = TILDE) /\ (3 <= n)%nat
      /\ tok = repeat c n
      /\ Py.startswith rest [c] = false.
Proof.
  split.
  - unfold CODE_FENCE_RE, fence_token.
    pose proof (span_space_split line) as S.
    pose proof (span_space_fst line) as F.
    destruct (span_space line) as [w r]. cbn [fst snd] in *.
    pose proof (span_char_split BACKTICK r) as Sb.
    pose proof (span_char_run BACKTICK r) as Rb.
    pose proof (span_char_longest BACKTICK r) as Lb.
    pose proof (span_char_split TILDE r) as St.
    pose proof (span_char_run TILDE r) as Rt.
    pose proof (span_char_longest TILDE r) as Lt.
    destruct (span_char BACKTICK r) as [bt r1].
    destruct (span_char TILDE r) as [tl r2]. cbn [fst snd] in *.
    destruct (3 <=? List.length bt)%nat eqn:E1.
    + intros H; injection H as <- <- <-. apply Nat.leb_le in E1.
      split; [now rewrite <- Sb|]. split; [exact F|].
      exists BACKTICK, (List.length bt). auto.
    + destruct (3 <=? List.length tl)%nat eqn:E2; [|discriminate].
      intros H; injection H as <- <- <-. apply Nat.leb_le in E2.
      split; [now rewrite <- St|]. split; [exact F|].
      exists TILDE, (List.length tl). auto.
  - intros (-> & Hws & c & n & Hc & Hn & -> & Hr).
    unfold CODE_FENCE_RE, fence_token.
    destruct n as [|[|[|n]]]; try lia.
    assert (Hsp : Py.isspace c = false) by now destruct Hc as [-> | ->].
    rewrite span_space_app; [|exact Hws | cbn; now rewrite Hsp].
    destruct Hc as [-> | ->].
    + rewrite (span_char_repeat _ _ _ Hr), repeat_length. reflexivity.
    + replace (span_char BACKTICK (repeat TILDE (S (S (S n))) ++ rest))
        with (@nil char, repeat TILDE (S (S (S n))) ++ rest) by reflexivity.
      cbn [List.length Nat.leb].
      rewrite (span_char_repeat _ _ _ Hr), repeat_length. reflexivity.
Qed.

(** ** The loop over the lines *)

Lemma step_in_mode (st st' : state) (line : str) (out : list str) :
  in_mode st -> step st line = Done (st', out) -> in_mode st'.
Proof.
  intros Hm. unfold step.
  destruct Hm as [((H1 & H2 & H3) & Hb)
                 |[(H1 & H2 & H3 & Hb & He)
                  |[(H1 & H2 & H3 & o & r & ws & tok & Hb & Ho & He)
                   |(H1 & H2 & H3 & o & r & Hb & Ho)]]];
    rewrite H1, ?H2, ?H3.
  - (* outside a block *)
    destruct (CODE_FENCE_MATH_START_RE line) as [[p t]|] eqn:Em.
    { intros H; injection H as <- _. right; right; left. cbn.
      repeat split; try assumption.
      exists line, [], p, t. rewrite Hb. auto. }
    destruct (CODE_FENCE_RE line) as [[[p t] r]|] eqn:Ef.
    { intros H; injection H as <- _. right; left. cbn.
      destruct (CODE_FENCE_RE_spec _ _ _ _ Ef) as (_ & Hp & Ht).
      repeat split; try assumption. exists p, t. auto. }
    unfold BLOCK_MATH_START_DELIM_RE.
    destruct (Py.startswith line BLOCK_OPEN) eqn:Eo.
    { change (dict_get DELIM_START_END_MAP BLOCK_OPEN)
        with (Some (lit "\]")).
      intros H; injection H as <- _. right; right; right. cbn.
      repeat split; try assumption. exists line, []. rewrite Hb. auto. }
    destruct (iter_inline_katex line); cbn [bind]; try discriminate.
    intros H; injection H as <- _. left. repeat split; assumption.
  - (* inside a plain fence *)
    destruct (str_eqb _ _); intros H; injection H as <- _.
    + left. cbn. repeat split; assumption.
    + right; left. repeat split; assumption.
  - (* inside a math fence *)
    destruct (str_eqb _ _).
    + destruct (_enclose_fence_block_math _); cbn [bind]; try discriminate.
      intros H; injection H as <- _. left. cbn. repeat split; assumption.
    + intros H; injection H as <- _. right; right; left. cbn.
      repeat split; try assumption.
      exists o, (r ++ [line]), ws, tok. rewrite Hb. auto.
  - (* inside a bracket block *)
    destruct (Py.contains _ _); intros H; injection H as <- _.
    + left. cbn. repeat split; assumption.
    + right; right; right. cbn. repeat split; try assumption.
      exists o, (r ++ [line]). rewrite Hb. auto.
Qed.

(** X4.  Whatever lines were read from the start of a document, the loop
    is in one of its four modes: outside a block or inside a plain fence
    with an empty buffer, inside a math fence or a bracket block with a
    buffer that starts with the line that opened the block.  At most one
    of the three flags is set, and the expected close of a bracket block
    is unchanged. *)
Theorem reachable_in_mode (lines out : list str) (st : state) :
  iter_loop initial_state lines = Done (out, st) ->
  in_mode st /\ expected_math_block_close st = lit "\]".
Proof.
  intros H. split.
  - assert (G : forall ls s s' o,
               in_mode s -> iter_loop s ls = Done (o, s') -> in_mode s').
    { induction ls as [|l ls IH]; intros s s' o Hs; cbn [iter_loop].
      - intros E; injection E as _ <-. exact Hs.
      - destruct (step s l) as [[s1 o1]| |] eqn:Es; cbn [bind];
          try discriminate.
        cbn [fst snd].
        destruct (iter_loop s1 ls) as [[o2 s2]| |] eqn:El; cbn [bind];
          try discriminate.
        intros E; injection E as _ <-.
        exact (IH _ _ _ (step_in_mode _ _ _ _ Hs Es) El). }
    apply (G lines initial_state st out); [|exact H].
    left. repeat split.
  - assert (Hi : invariant initial_state) by (split; [reflexivity | auto]).
    exact (proj1 (iter_loop_invariant _ _ _ _ Hi H)).
Qed.

Lemma reachable_in_mode_witness :
  exists out st,
    iter_loop initial_state [lit "a"; lit "  ~~~math"; lit "x"] =
    Done (out, st)
    /\ in_mode st /\ expected_math_block_close st = lit "\]".
Proof.
  do 2 eexists. split; [reflexivity|].
  exact (reachable_in_mode [lit "a"; lit "  ~~~math"; lit "x"] _ _ eq_refl).
Defined.

Lemma step_length (st st' : state) (line : str) (out : list str) :
  step st line = Done (st', out) ->
  (List.length out + List.length (block_math_lines st')
   <= 1 + List.length (block_math_lines st))%nat.
Proof.
  unfold step.
  destruct (is_in_code_fence st).
  { destruct (str_eqb _ _); intros H; injection H as <- <-; cbn; lia. }
  destruct (is_in_code_fence_math st).
  { destruct (str_eqb _ _).
    - destruct (_enclose_fence_block_math _); cbn [bind]; try discriminate.
      intros H; injection H as <- <-. cbn. lia.
    - intros H; injection H as <- <-. cbn. rewrite length_app. cbn. lia. }
  destruct (is_in_math_block st).
  { destruct (Py.contains _ _); intros H; injection H as <- <-; cbn;
      rewrite ?length_app; cbn; lia. }
  destruct (CODE_FENCE_MATH_START_RE line) as [[p t]|].
  { intros H; injection H as <- <-. cbn. rewrite length_app. cbn. lia. }
  destruct (CODE_FENCE_RE line) as [[[p t] r]|].
  { intros H; injection H as <- <-. cbn. lia. }
  destruct (BLOCK_MATH_START_DELIM_RE line).
  { change (dict_get DELIM_START_END_MAP BLOCK_OPEN) with (Some (lit "\]")).
    intros H; injection H as <- <-. cbn. rewrite length_app. cbn. lia. }
  destruct (iter_inline_katex line); cbn [bind]; try discriminate.
  intros H; injection H as <- <-. cbn. lia.
Qed.

Lemma iter_loop_length (lines : list str) :
  forall st st' out,
    iter_loop st lines = Done (out, st') ->
    (List.length out + List.length (block_math_lines st')
     <= List.length lines + List.length (block_math_lines st))%nat.
Proof.
  induction lines as [|l lines IH]; intros st st' out; cbn [iter_loop].
  - intros H; injection H as <- <-. cbn. lia.
  - destruct (step st l) as [[s1 o1]| |] eqn:Es; cbn [bind];
      try discriminate.
    cbn [fst snd].
    destruct (iter_loop s1 lines) as [[o2 s2]| |] eqn:El; cbn [bind];
      try discriminate.
    cbn [fst snd]. intros H; injection H as <- <-.
    apply step_length in Es. apply IH in El.
    rewrite length_app. cbn [List.length]. lia.
Qed.

(** X5.  [run] never returns more lines than it was given: a line read
    yields at most one line or goes to the buffer, and a block that
    closes turns its buffered lines into one. *)
Theorem run_not_longer (lines out : list str) :
  run lines = Done out -> (List.length out <= List.length lines)%nat.
Proof.
  unfold run, _iter_lines, iter_lines_from.
  destruct (iter_loop initial_state lines) as [[o s]| |] eqn:E;
    cbn [bind]; try discriminate.
  cbn [fst snd]. intros H; injection H as <-.
  apply iter_loop_length in E. rewrite length_app.
  cbn [block_math_lines initial_state List.length] in E. lia.
Qed.

Lemma run_not_longer_witness :
  exists out,
    run [lit "a"; lit "\["; lit "x"; lit "y"; lit "\]"; lit "b"] = Done out
    /\ (List.length out <= 6)%nat.
Proof.
  eexists. split; [reflexivity|].
  exact (run_not_longer
           [lit "a"; lit "\["; lit "x"; lit "y"; lit "\]"; lit "b"] _
           eq_refl).
Defined.

Lemma no_opening_unterminated (l : str) :
  Py.contains INLINE_OPEN l = false -> unterminated l = true.
Proof.
  unfold Py.contains, unterminated, Py.index. intros H.
  change (0 <? 0) with false. cbv beta iota zeta.
  destruct (Py.len l <? 0) eqn:E.
  - reflexivity.
  - cbn [Z.to_nat skipn].
    destruct (Py.find_at INLINE_OPEN l 0); [discriminate | reflexivity].
Qed.

Lemma step_plain_line (st : state) (l : str) :
  normal st -> plain_line l = true -> step st l = Done (st, [l]).
Proof.
  intros Hn H. unfold plain_line in H.
  apply andb_true_iff in H as [H Ho].
  apply andb_true_iff in H as [H Hf].
  apply andb_true_iff in H as [Hb Hi].
  apply negb_true_iff in Ho, Hb, Hi.
  destruct (CODE_FENCE_RE l) eqn:Ef; [discriminate|].
  apply (step_unterminated _ _ Hn Hb (no_opening_unterminated _ Hi) Ef Ho).
Qed.

(** X11.  [run] returns a document of plain lines as it is: lines with no
    backtick and no inline opening token that open neither a fence nor a
    bracket block. *)
Theorem run_plain_document (lines : list str) :
  forallb plain_line lines = true -> run lines = Done lines.
Proof.
  intros H. unfold run, _iter_lines, iter_lines_from.
  assert (G : iter_loop initial_state lines = Done (lines, initial_state)).
  { induction lines as [|l lines IH]; [reflexivity|].
    cbn [forallb] in H. apply andb_true_iff in H as [Hl H].
    cbn [iter_loop].
    rewrite (step_plain_line initial_state l) by (repeat split || exact Hl).
    cbn [bind fst snd]. now rewrite (IH H). }
  rewrite G. cbn. now rewrite app_nil_r.
Qed.

Lemma run_plain_document_witness :
  run [lit "# Title"; []; lit "some (text) with $ and \ in it"; lit "  ~~"] =
  Done [lit "# Title"; []; lit "some (text) with $ and \ in it"; lit "  ~~"].
Proof.
  exact (run_plain_document
           [lit "# Title"; []; lit "some (text) with $ and \ in it";
            lit "  ~~"] eq_refl).
Defined.

Lemma agree_refl (st : state) : agree st st.
Proof. repeat split. Qed.

Lemma same_outcome_agree (r1 r2 : outcome (state * list str)) :
  r1 = r2 ->
  match r1, r2 with
  | Done (s1', o1), Done (s2', o2) => o1 = o2 /\ agree s1' s2'
  | Raised e1, Raised e2 => e1 = e2
  | OutOfFuel, OutOfFuel => True
  | _, _ => False
  end.
Proof. intros <-. destruct r1 as [[s o]| |]; auto using agree_refl. Qed.

(** Two states that agree yield the same lines on a line and agree after
    it. *)
Lemma step_agree (s1 s2 : state) (l : str) :
  agree s1 s2 ->
  match step s1 l, step s2 l with
  | Done (s1', o1), Done (s2', o2) => o1 = o2 /\ agree s1' s2'
  | Raised e1, Raised e2 => e1 = e2
  | OutOfFuel, OutOfFuel => True
  | _, _ => False
  end.
Proof.
  destruct s1 as [fm1 cf1 mb1 ec1 em1 b1], s2 as [fm2 cf2 mb2 ec2 em2 b2].
  unfold agree. cbn. intros (<- & <- & <- & <- & <- & He).
  destruct cf1.
  { destruct (He eq_refl). now apply same_outcome_agree. }
  destruct fm1.
  { destruct (He eq_refl). now apply same_outcome_agree. }
  unfold step.
  cbn [is_in_code_fence is_in_code_fence_math is_in_math_block
       expected_code_fence_close expected_math_block_close block_math_lines].
  destruct mb1.
  { destruct (Py.contains _ _); (split; [reflexivity|]); unfold agree; cbn;
      repeat split; discriminate. }
  destruct (CODE_FENCE_MATH_START_RE l) as [[p t]|].
  { split; [reflexivity | unfold agree; cbn; repeat split]. }
  destruct (CODE_FENCE_RE l) as [[[p t] r]|].
  { split; [reflexivity | unfold agree; cbn; repeat split]. }
  destruct (BLOCK_MATH_START_DELIM_RE l).
  { change (dict_get DELIM_START_END_MAP BLOCK_OPEN) with (Some (lit "\]")).
    split; [reflexivity | unfold agree; cbn; repeat split]. }
  destruct (iter_inline_katex l); cbn [bind]; auto.
  split; [reflexivity|]. unfold agree; cbn. repeat split. exact He.
Qed.

Lemma iter_loop_agree (lines : list str) :
  forall s1 s2,
    agree s1 s2 ->
    match iter_loop s1 lines, iter_loop s2 lines with
    | Done (o1, s1'), Done (o2, s2') => o1 = o2 /\ agree s1' s2'
    | Raised e1, Raised e2 => e1 = e2
    | OutOfFuel, OutOfFuel => True
    | _, _ => False
    end.
Proof.
  induction lines as [|l lines IH]; intros s1 s2 Ha; cbn [iter_loop].
  - auto.
  - pose proof (step_agree s1 s2 l Ha) as Hs.
    destruct (step s1 l) as [[a1 o1]| |], (step s2 l) as [[a2 o2]| |];
      try contradiction; cbn [bind]; auto.
    destruct Hs as [<- Ha']. cbn [fst snd].
    specialize (IH _ _ Ha').
    destruct (iter_loop a1 lines) as [[p1 t1]| |],
             (iter_loop a2 lines) as [[p2 t2]| |];
      try contradiction; cbn [bind]; auto.
    destruct IH as [<- Ht]. cbn [fst snd]. auto.
Qed.

(** X12.  A document can be cut where no block is open: if the lines [a]
    leave the loop outside every block, [run a] returns what the loop
    yielded on [a], and [run (a ++ b)] is that followed by [run b] (and
    fails as [run b] does). *)
Theorem run_compose (a b out : list str) (st : state) :
  iter_loop initial_state a = Done (out, st) ->
  normal st ->
  run a = Done out
  /\ run (a ++ b) = (r <- run b ;; Done (out ++ r)).
Proof.
  intros Ha Hn. pose proof (reachable_ready _ _ _ Ha Hn) as (_ & Hb & Hm).
  split.
  - unfold run, _iter_lines, iter_lines_from. rewrite Ha. cbn [bind fst snd].
    now rewrite Hb, app_nil_r.
  - rewrite (run_app _ _ _ _ Ha).
    assert (Hag : agree st initial_state).
    { destruct Hn as (H1 & H2 & H3). unfold agree. cbn.
      rewrite H1, H2, H3, Hb, Hm. repeat split. discriminate. }
    unfold run, _iter_lines, iter_lines_from.
    pose proof (iter_loop_agree b _ _ Hag) as H.
    destruct (iter_loop st b) as [[o1 s1]| |],
             (iter_loop initial_state b) as [[o2 s2]| |];
      try contradiction; cbn [bind fst snd].
    + destruct H as (<- & _ & _ & _ & _ & <- & _). reflexivity.
    + now subst.
    + reflexivity.
Qed.

Lemma run_compose_witness :
  run ([lit "```math"; lit "x"; lit "```"] ++ [lit "\(y\)"]) =
  (r <- run [lit "\(y\)"] ;;
   Done ([lit "<div class=" ++ [QUOTE] ++ lit "math-block" ++ [QUOTE]
              ++ lit ">\[" ++ [NEWLINE] ++ lit "x" ++ [NEWLINE]
              ++ lit "\]</div>"] ++ r)).
Proof.
  refine (proj2 (run_compose [lit "```math"; lit "x"; lit "```"]
                   [lit "\(y\)"] _ _ eq_refl _)).
  repeat split.
Defined.

(** ** The inline scanner *)

Lemma startswith_nil_r (r : str) : Py.startswith r [] = true.
Proof. now destruct r. Qed.

(** A token of one character occurs at an offset exactly when the
    character is there. *)
Lemma startswith_single (l : str) (k : nat) (c : char) :
  Py.startswith (skipn k l) [c] = true <-> nth_error l k = Some c.
Proof.
  revert l; induction k as [|k IH]; intros [|a l]; cbn [skipn nth_error].
  - split; discriminate.
  - cbn [Py.startswith]. rewrite startswith_nil_r, andb_true_r, N.eqb_eq.
    split; [now intros -> | now intros [= ->]].
  - split; discriminate.
  - apply IH.
Qed.

Lemma contains_single_In (l : str) (c : char) :
  Py.contains [c] l = false -> ~ In c l.
Proof.
  unfold Py.contains. intros H Hin.
  destruct (Py.find_at [c] l 0) eqn:E; [discriminate|].
  apply In_nth_error in Hin as [k Hk].
  apply startswith_single in Hk.
  now rewrite (find_at_None _ _ _ E k) in Hk.
Qed.

Lemma getitem_In {A} (l : list A) (i : Z) (c : A) :
  Py.getitem l i = Some c -> In c l.
Proof.
  unfold Py.getitem.
  destruct ((_ <? 0) || _); [discriminate|]. apply nth_error_In.
Qed.

(** The character before a code span delimiter: [line[start - 1]] never
    raises, at offset 0 it is the last character of the line. *)
Lemma getitem_before (line : str) (s : Z) :
  0 <= s < Py.len line -> Py.getitem line (s - 1) <> None.
Proof.
  intros Hs. unfold Py.getitem.
  destruct (s - 1 <? 0) eqn:E.
  - apply Z.ltb_lt in E. assert (s = 0) by lia. subst s.
    destruct ((0 - 1 + Py.len line <? 0)
              || (Py.len line <=? 0 - 1 + Py.len line)) eqn:E'.
    + apply orb_true_iff in E' as [E'|E'];
        [apply Z.ltb_lt in E' | apply Z.leb_le in E']; lia.
    + apply nth_error_Some. unfold Py.len in *. lia.
  - apply Z.ltb_ge in E.
    destruct ((s - 1 <? 0) || (Py.len line <=? s - 1)) eqn:E'.
    + apply orb_true_iff in E' as [E'|E'];
        [apply Z.ltb_lt in E' | apply Z.leb_le in E']; lia.
    + apply nth_error_Some. unfold Py.len in *. lia.
Qed.

Lemma scan_line_without_dollar (line : str) :
  Py.contains [DOLLAR] line = false ->
  forall fuel pos,
    0 <= pos ->
    (Z.to_nat (Py.len line - pos) < fuel)%nat ->
    exists items,
      scan_line fuel line pos = Done items
      /\ Forall (bracket_item line) items.
Proof.
  intros Hd. apply contains_single_In in Hd.
  induction fuel as [|fuel IH]; intros pos Hp Hf; [lia|].
  cbn [scan_line].
  destruct (CODE_SPAN_DELIM_RE line pos) as [[[s e] d]|] eqn:Ec.
  - apply code_span_delim_spec in Ec as (Hs & Hdl); [|exact Hp].
    assert (Hl : 1 <= Py.len d)
      by (destruct Hdl as [-> | ->]; unfold Py.len; simpl; lia).
    destruct (scan_before_settled line s (S (List.length line)) pos Hp)
      as [before Eb]; [unfold Py.len; lia|].
    rewrite Eb. cbn [bind].
    apply scan_before_items in Eb; [|exact Hp].
    assert (Hbefore : Forall (bracket_item line) before).
    { eapply Forall_impl; [|exact Eb]. now intros it [H _]. }
    assert (K : forall r : outcome (list InlineMathItem),
               (exists l, r = Done l /\ Forall (bracket_item line) l) ->
               exists items,
                 (rest <- r ;; Done (before ++ rest)) = Done items
                 /\ Forall (bracket_item line) items).
    { intros r (l & -> & Hl'). exists (before ++ l).
      split; [reflexivity | now apply Forall_app]. }
    apply K. clear K.
    destruct (Py.index line d (s + Py.len d)) as [i|] eqn:Ei.
    + apply index_Some in Ei as (Hi & _ & _); [|lia].
      destruct (Py.getitem line (s - 1)) as [c1|] eqn:E1.
      2:{ exfalso. apply (getitem_before line s); [lia | exact E1]. }
      destruct (N.eqb c1 DOLLAR) eqn:D1.
      { apply N.eqb_eq in D1 as ->. apply getitem_In in E1. contradiction. }
      apply IH; unfold Py.len in *; lia.
    + apply IH; unfold Py.len in *; lia.
  - destruct (scan_after_settled line (S (List.length line)) pos Hp)
      as [items Ea]; [unfold Py.len; lia|].
    exists items. split; [exact Ea|].
    apply (scan_after_items _ _ _ _ Hp Ea).
Qed.

(** X10.  On a line that holds no dollar sign the scanner raises nothing:
    it returns its spans, and each of them is a bracket span, from an
    opening token to the first closing token after it. *)
Theorem scanner_without_dollar (line : str) :
  Py.contains [DOLLAR] line = false ->
  exists items,
    iter_inline_katex line = Done items
    /\ Forall (bracket_item line) items.
Proof.
  intros H. apply (scan_line_without_dollar line H); [lia|].
  unfold Py.len. lia.
Qed.

Lemma scanner_without_dollar_witness :
  exists items,
    iter_inline_katex (lit "`a` \(x\) `b` and \(y") = Done items
    /\ Forall (bracket_item (lit "`a` \(x\) `b` and \(y")) items.
Proof.
  exact (scanner_without_dollar (lit "`a` \(x\) `b` and \(y") eq_refl).
Defined.

(** *** Slices of a line *)

Lemma bound_in_range {A} (l : list A) (i : Z) :
  0 <= i <= Py.len l -> Py.bound l i = i.
Proof.
  intros H. unfold Py.bound.
  destruct (i <? 0) eqn:E; [apply Z.ltb_lt in E; lia | lia].
Qed.

Lemma slice_to_from {A} (l : list A) (p : Z) :
  Py.slice_to l p ++ Py.slice_from l p = l.
Proof. unfold Py.slice_to, Py.slice_from. apply firstn_skipn. Qed.

Lemma slice_to_split {A} (l : list A) (p s : Z) :
  0 <= p <= s -> s <= Py.len l ->
  Py.slice_to l s = Py.slice_to l p ++ Py.slice l p s.
Proof.
  intros Hp Hs. unfold Py.slice_to, Py.slice.
  rewrite !bound_in_range by lia.
  rewrite <- (firstn_skipn (Z.to_nat p) (firstn (Z.to_nat s) l)).
  rewrite firstn_firstn, skipn_firstn_comm. do 2 f_equal; lia.
Qed.

Lemma slice_split {A} (l : list A) (a b c : Z) :
  0 <= a <= b -> b <= c <= Py.len l ->
  Py.slice l a c = Py.slice l a b ++ Py.slice l b c.
Proof.
  intros Ha Hc. unfold Py.slice. rewrite !bound_in_range by lia.
  rewrite <- (firstn_skipn (Z.to_nat (b - a))
                (firstn (Z.to_nat (c - a)) (skipn (Z.to_nat a) l))).
  rewrite firstn_firstn, skipn_firstn_comm, skipn_skipn.
  repeat f_equal; lia.
Qed.

(** The text of a token that occurs at the offset [k]. *)
Lemma slice_startswith (l tok : str) (k : Z) :
  0 <= k <= Py.len l ->
  Py.startswith (skipn (Z.to_nat k) l) tok = true ->
  Py.slice l k (k + Py.len tok) = tok.
Proof.
  intros Hk H. pose proof (startswith_len _ _ H) as Hl.
  apply startswith_split in H as [r Hr].
  unfold Py.len in Hl. rewrite length_skipn in Hl.
  pose proof (len_nonneg tok).
  unfold Py.slice. rewrite !bound_in_range by (unfold Py.len in *; lia).
  rewrite Hr. replace (k + Py.len tok - k) with (Py.len tok) by lia.
  unfold Py.len. rewrite Nat2Z.id, firstn_app, firstn_all, Nat.sub_diag.
  cbn. apply app_nil_r.
Qed.

Lemma startswith_firstn (x tok : str) (n : nat) :
  Py.startswith (firstn n x) tok = true -> Py.startswith x tok = true.
Proof.
  intros H. apply startswith_split in H as [r Hr].
  rewrite <- (firstn_skipn n x), Hr, <- app_assoc. apply startswith_app.
Qed.

(** The value of [replace_spans] on spans that follow each other from the
    offset [p]: the line up to [p], then the line rendered from [p]. *)
Lemma ordered_le (items : list InlineMathItem) :
  forall p n, ordered p items n -> p <= n.
Proof.
  induction items as [|it rest IH]; intros p n; cbn [ordered]; [auto|].
  intros (H1 & H2 & H3). apply IH in H3. lia.
Qed.

Lemma ordered_from (items : list InlineMathItem) (p q n : Z) :
  p <= q -> ordered q items n -> ordered p items n.
Proof.
  destruct items as [|it rest]; cbn [ordered]; [lia|].
  intros H (H1 & H2 & H3). repeat split; (lia || assumption).
Qed.

Lemma replace_spans_from (line : str) (items : list InlineMathItem) :
  forall p,
    0 <= p ->
    ordered p items (Py.len line) ->
    replace_spans line items = Py.slice_to line p ++ render line p items.
Proof.
  induction items as [|it rest IH]; intros p Hp Ho; cbn [render].
  - cbn. symmetry. apply slice_to_from.
  - cbn [ordered] in Ho. destruct Ho as (H1 & H2 & H3).
    pose proof (ordered_le _ _ _ H3) as Hn.
    assert (Hr : replace_spans line (it :: rest) =
                 Py.slice_to (replace_spans line rest) (start it)
                   ++ _enclose_inline_math (inline_math it)
                   ++ Py.slice_from (replace_spans line rest) (end_ it)).
    { unfold replace_spans. cbn [rev]. now rewrite fold_left_app. }
    rewrite Hr, (IH (end_ it)) by (lia || assumption).
    assert (Hlen : Py.len (Py.slice_to line (end_ it)) = end_ it).
    { unfold Py.slice_to. rewrite bound_in_range by lia.
      unfold Py.len in *. rewrite length_firstn. lia. }
    assert (Hf : forall b : str,
               Py.slice_from (Py.slice_to line (end_ it) ++ b) (end_ it) = b).
    { intros b. rewrite <- Hlen at 2. apply slice_from_app. }
    rewrite Hf.
    assert (Ht : forall b : str,
               Py.slice_to (Py.slice_to line (end_ it) ++ b) (start it)
               = Py.slice_to line (start it)).
    { intros b. pose proof (len_nonneg b).
      unfold Py.slice_to at 1.
      rewrite (bound_in_range _ (start it)) by (rewrite len_app, Hlen; lia).
      rewrite firstn_app.
      replace (Z.to_nat (start it)
               - List.length (Py.slice_to line (end_ it)))%nat with 0%nat
        by (unfold Py.len in Hlen; lia).
      cbn [firstn]. rewrite app_nil_r.
      unfold Py.slice_to. rewrite !bound_in_range by lia.
      rewrite firstn_firstn. f_equal. lia. }
    rewrite Ht, (slice_to_split line p (start it)) by lia.
    now rewrite <- app_assoc.
Qed.

(** X7.  Replacing the spans last one first, as [_iter_lines] does, keeps
    the offsets of the earlier spans valid when the spans follow each
    other without overlap: the result is the line with each span replaced
    by the markup of its inner text and everything between the spans
    kept. *)
Theorem replace_spans_ordered (line : str) (items : list InlineMathItem) :
  ordered 0 items (Py.len line) ->
  replace_spans line items = render line 0 items.
Proof.
  intros H. rewrite (replace_spans_from line items 0) by (lia || assumption).
  unfold Py.slice_to.
  rewrite bound_in_range by (pose proof (len_nonneg line); lia).
  reflexivity.
Qed.

Lemma replace_spans_ordered_witness :
  replace_spans (lit "a \(x\) b \(y\) c")
    [mkItem 2 7 (lit "x"); mkItem 10 15 (lit "y")] =
  lit "a " ++ _enclose_inline_math (lit "x") ++ lit " b "
      ++ _enclose_inline_math (lit "y") ++ lit " c".
Proof.
  refine (replace_spans_ordered (lit "a \(x\) b \(y\) c")
            [mkItem 2 7 (lit "x"); mkItem 10 15 (lit "y")] _).
  cbn. lia.
Defined.

(** *** Lines without a backtick *)

(** The text of a bracket span: the opening token, the inner text and the
    closing token; the span lies inside the line. *)
Lemma bracket_item_text (line : str) (it : InlineMathItem) :
  bracket_item line it ->
  0 <= start it
  /\ start it + 4 <= end_ it <= Py.len line
  /\ Py.slice line (start it) (end_ it)
     = INLINE_OPEN ++ inline_math it ++ INLINE_CLOSE.
Proof.
  intros (H0 & Ho & Hi & Hm).
  apply index_Some in Hi as (Hj & Hc & _); [|lia].
  pose proof (startswith_len _ _ Hc) as Hl.
  change (Py.len INLINE_CLOSE) with 2 in Hl.
  unfold Py.len in Hl. rewrite length_skipn in Hl.
  assert (He : end_ it <= Py.len line) by (unfold Py.len in *; lia).
  split; [exact H0|]. split; [lia|].
  rewrite (slice_split line (start it) (start it + 2) (end_ it)) by lia.
  rewrite (slice_split line (start it + 2) (end_ it - 2) (end_ it)) by lia.
  rewrite <- Hm. f_equal; [|f_equal].
  - apply (slice_startswith line INLINE_OPEN (start it)); [lia | exact Ho].
  - replace (end_ it) with (end_ it - 2 + Py.len INLINE_CLOSE) at 2
      by (change (Py.len INLINE_CLOSE) with 2; lia).
    apply slice_startswith; [lia | exact Hc].
Qed.

(** The inner text of a bracket span holds no closing token: the span ends
    at the first one. *)
Lemma bracket_item_inner (line : str) (it : InlineMathItem) :
  bracket_item line it ->
  Py.contains INLINE_CLOSE (inline_math it) = false.
Proof.
  intros (H0 & Ho & Hi & Hm).
  apply index_Some in Hi as (Hj & Hc & Hmin); [|lia].
  unfold Py.contains.
  destruct (Py.find_at INLINE_CLOSE (inline_math it) 0) as [j|] eqn:E;
    [exfalso | reflexivity].
  apply find_at_Some in E as (Hb & Hs & _).
  rewrite Z.sub_0_r in Hs.
  pose proof (startswith_len _ _ Hs) as Hl.
  change (Py.len INLINE_CLOSE) with 2 in Hl.
  rewrite Hm in Hs, Hl. unfold Py.slice in Hs, Hl.
  rewrite !bound_in_range in Hs, Hl by lia.
  rewrite skipn_firstn_comm in Hs, Hl.
  unfold Py.len in Hl. rewrite length_firstn in Hl.
  apply startswith_firstn in Hs. rewrite skipn_skipn in Hs.
  replace (Z.to_nat j + Z.to_nat (start it + 2))%nat
    with (Z.to_nat (start it + 2 + j)) in Hs by lia.
  rewrite (Hmin (start it + 2 + j)) in Hs by lia. discriminate.
Qed.

(** After the last code span the spans follow each other from the cursor
    on and end inside the line. *)
Lemma scan_after_ordered (line : str) :
  forall fuel p items,
    0 <= p <= Py.len line ->
    scan_after fuel line p = Done items ->
    ordered p items (Py.len line).
Proof.
  induction fuel as [|fuel IH]; intros p items Hp; [discriminate|].
  cbn [scan_after]. unfold INLINE_MATH_START_DELIM_RE.
  rewrite (search_literal_index _ _ _ inline_open_not_nil (proj1 Hp)).
  destruct (Py.index line INLINE_OPEN p) as [m|] eqn:Em.
  2:{ intros H; injection H as <-. cbn [ordered]. lia. }
  apply index_Some in Em as (Hm & Ho & _); [|lia].
  apply startswith_len in Ho. change (Py.len INLINE_OPEN) with 2 in Ho.
  unfold Py.len in Ho. rewrite length_skipn in Ho.
  change (dict_get DELIM_START_END_MAP INLINE_OPEN) with (Some INLINE_CLOSE).
  change (Py.len INLINE_OPEN) with 2. cbv beta iota zeta.
  destruct (Py.index line INLINE_CLOSE (m + 2)) as [j|] eqn:Ej.
  - intros H. apply yield_Done in H as (l & Hl & ->).
    apply index_Some in Ej as (Hj & Hc & _); [|lia].
    apply startswith_len in Hc. change (Py.len INLINE_CLOSE) with 2 in Hc.
    unfold Py.len in Hc. rewrite length_skipn in Hc.
    cbn [ordered start end_]. split; [lia|]. split; [lia|].
    apply (IH (j + 2)); [unfold Py.len in *; lia | exact Hl].
  - intros H. apply (ordered_from _ p (m + 2)); [lia|].
    apply (IH (m + 2)); [unfold Py.len in *; lia | exact H].
Qed.

(** X6.  On a line that holds no backtick the scanner returns spans that
    follow each other from left to right without overlap, inside the line;
    the text of each span is an opening token, the inner text and a closing
    token, and the inner text holds no closing token. *)
Theorem scanner_without_backtick (line : str) :
  Py.contains [BACKTICK] line = false ->
  exists items,
    iter_inline_katex line = Done items
    /\ ordered 0 items (Py.len line)
    /\ Forall (fun it =>
                 Py.slice line (start it) (end_ it)
                 = INLINE_OPEN ++ inline_math it ++ INLINE_CLOSE
                 /\ Py.contains INLINE_CLOSE (inline_math it) = false)
              items.
Proof.
  intros Hb. pose proof (len_nonneg line) as Hl.
  unfold iter_inline_katex. cbn [scan_line].
  rewrite (no_code_span_delim line 0 Hb).
  destruct (scan_after_settled line (S (List.length line)) 0) as [items E];
    [lia | unfold Py.len; lia |].
  exists items. split; [exact E|]. split.
  - apply (scan_after_ordered line (S (List.length line)) 0 items);
      [lia | exact E].
  - apply scan_after_items in E; [|lia].
    eapply Forall_impl; [|exact E]. intros it Hit. split.
    + now apply bracket_item_text in Hit as (_ & _ & ->).
    + now apply bracket_item_inner in Hit.
Qed.

Lemma scanner_without_backtick_witness :
  exists items,
    iter_inline_katex (lit "a \(x\) \(b \(y\) c\)") = Done items
    /\ ordered 0 items (Py.len (lit "a \(x\) \(b \(y\) c\)"))
    /\ Forall (fun it =>
                 Py.slice (lit "a \(x\) \(b \(y\) c\)") (start it) (end_ it)
                 = INLINE_OPEN ++ inline_math it ++ INLINE_CLOSE
                 /\ Py.contains INLINE_CLOSE (inline_math it) = false)
              items.
Proof.
  exact (scanner_without_backtick (lit "a \(x\) \(b \(y\) c\)") eq_refl).
Defined.

(** *** Code spans next to a dollar *)

Lemma getitem_app_r {A} (a b : list A) (k : Z) :
  0 <= k -> Py.getitem (a ++ b) (Py.len a + k) = Py.getitem b k.
Proof.
  intros Hk. pose proof (len_nonneg a) as Ha.
  assert (E1 : (Py.len a + k <? 0) = false) by (apply Z.ltb_ge; lia).
  assert (E2 : (k <? 0) = false) by (apply Z.ltb_ge; lia).
  unfold Py.getitem. rewrite len_app, E1, E2. cbv beta iota zeta.
  rewrite E1, E2. cbn [orb].
  replace (Py.len a + Py.len b <=? Py.len a + k) with (Py.len b <=? k)
    by (destruct (Z.leb_spec (Py.len b) k),
                 (Z.leb_spec (Py.len a + Py.len b) (Py.len a + k));
        (reflexivity || lia)).
  destruct (Py.len b <=? k); [reflexivity|].
  rewrite nth_error_app2 by (unfold Py.len in *; lia).
  f_equal. unfold Py.len. lia.
Qed.

Lemma getitem_past {A} (l : list A) (k : Z) :
  Py.len l <= k -> Py.getitem l k = None.
Proof.
  intros Hk. pose proof (len_nonneg l).
  assert (E1 : (k <? 0) = false) by (apply Z.ltb_ge; lia).
  assert (E2 : (Py.len l <=? k) = true) by (apply Z.leb_le; lia).
  unfold Py.getitem. rewrite E1. cbv beta iota zeta. now rewrite E1, E2.
Qed.

(** The first occurrence of a token from [q]: where it starts, when its
    first character does not occur between [q] and that offset. *)
Lemma index_after (a b : str) (c : char) (t : str) (q : Z) :
  0 <= q <= Py.len a ->
  ~ In c (skipn (Z.to_nat q) a) ->
  Py.startswith b (c :: t) = true ->
  Py.index (a ++ b) (c :: t) q = Some (Py.len a).
Proof.
  intros Hq Hn Hb. apply index_first; [discriminate | lia | |].
  - unfold Py.len. rewrite Nat2Z.id, skipn_app, skipn_all, Nat.sub_diag.
    exact Hb.
  - intros k Hk.
    destruct (Py.startswith (skipn (Z.to_nat k) (a ++ b)) (c :: t)) eqn:E;
      [exfalso | reflexivity].
    apply Hn.
    destruct (nth_error a (Z.to_nat k)) as [x|] eqn:Ex.
    2:{ apply nth_error_None in Ex. unfold Py.len in *. lia. }
    assert (x = c) as ->.
    { apply (nth_error_startswith (a ++ b) (Z.to_nat k) x c t); [|exact E].
      rewrite nth_error_app1; [exact Ex | unfold Py.len in *; lia]. }
    apply (nth_error_In _ (Z.to_nat k - Z.to_nat q)).
    rewrite nth_error_skipn.
    now replace (Z.to_nat q + (Z.to_nat k - Z.to_nat q))%nat
      with (Z.to_nat k) by lia.
Qed.

(** The code span delimiter found from [pos]: the run [d] of one or two
    backticks that follows [a], when no backtick lies between [pos] and the
    end of [a] and none follows the run. *)
Lemma code_span_delim_at (a d r : str) (pos : Z) :
  0 <= pos <= Py.len a ->
  ~ In BACKTICK (skipn (Z.to_nat pos) a) ->
  d = [BACKTICK] \/ d = [BACKTICK; BACKTICK] ->
  Py.startswith r [BACKTICK] = false ->
  CODE_SPAN_DELIM_RE (a ++ d ++ r) pos
  = Some (Py.len a, Py.len a + Py.len d, d).
Proof.
  intros Hp Hn Hd Hr. unfold CODE_SPAN_DELIM_RE.
  rewrite (search_literal_index [BACKTICK] _ pos) by (discriminate || lia).
  rewrite (index_after a (d ++ r) BACKTICK [] pos Hp Hn).
  2:{ destruct Hd as [-> | ->]; cbn [app Py.startswith];
        now rewrite N.eqb_refl, ?startswith_nil_r. }
  rewrite (getitem_app_r a (d ++ r) 1) by lia.
  destruct Hd as [-> | ->].
  - change 1 with (Py.len [BACKTICK] + 0) at 1.
    rewrite (getitem_app_r [BACKTICK] r 0) by lia.
    destruct r as [|x r]; [reflexivity|].
    rewrite getitem_0. cbn [Py.startswith] in Hr.
    rewrite startswith_nil_r, andb_true_r, N.eqb_sym in Hr. now rewrite Hr.
  - change ([BACKTICK; BACKTICK] ++ r) with ([BACKTICK] ++ BACKTICK :: r).
    change 1 with (Py.len [BACKTICK] + 0) at 1.
    rewrite (getitem_app_r [BACKTICK] (BACKTICK :: r) 0) by lia.
    rewrite getitem_0. reflexivity.
Qed.

Lemma no_backtick_head (body r : str) :
  ~ In BACKTICK body -> body <> [] ->
  Py.startswith (body ++ r) [BACKTICK] = false.
Proof.
  intros Hn Hb. destruct body as [|x body]; [congruence|].
  cbn [app Py.startswith]. rewrite startswith_nil_r, andb_true_r.
  apply N.eqb_neq. intros <-. apply Hn. now left.
Qed.

(** X9.  A code span delimited by one or two backticks, not empty, with a
    dollar right before it and the end of the line right after it makes
    the scanner raise IndexError: having found the dollar before the span
    it reads the character after the span, and there is none. *)
Theorem dollar_code_span_at_end_raises (pre d body : str) :
  d = [BACKTICK] \/ d = [BACKTICK; BACKTICK] ->
  Py.contains [BACKTICK] pre = false ->
  Py.contains [BACKTICK] body = false ->
  body <> [] ->
  iter_inline_katex (pre ++ [DOLLAR] ++ d ++ body ++ d) = Raised IndexError.
Proof.
  intros Hd Hpre Hbody Hne.
  apply contains_single_In in Hpre, Hbody.
  pose proof (len_nonneg pre) as Lp. pose proof (len_nonneg body) as Lb.
  assert (Ld : 1 <= Py.len d)
    by (destruct Hd as [-> | ->]; unfold Py.len; simpl; lia).
  set (a := pre ++ [DOLLAR]).
  assert (La : Py.len a = Py.len pre + 1) by (unfold a; now rewrite len_app).
  assert (Ha : ~ In BACKTICK (skipn (Z.to_nat 0) a)).
  { cbn [Z.to_nat skipn]. unfold a. rewrite in_app_iff.
    intros [H | [H | []]]; [contradiction | discriminate]. }
  replace (pre ++ [DOLLAR] ++ d ++ body ++ d) with (a ++ d ++ body ++ d)
    by (unfold a; now rewrite <- app_assoc).
  set (line := a ++ d ++ body ++ d).
  assert (Ll : Py.len line = Py.len a + Py.len d + Py.len body + Py.len d)
    by (unfold line; rewrite !len_app; lia).
  assert (Ec : CODE_SPAN_DELIM_RE line 0
               = Some (Py.len a, Py.len a + Py.len d, d)).
  { apply code_span_delim_at; [lia | exact Ha | exact Hd |].
    now apply no_backtick_head. }
  assert (Ei : Py.index line d (Py.len a + Py.len d)
               = Some (Py.len a + Py.len d + Py.len body)).
  { unfold line. rewrite !app_assoc, <- !len_app.
    assert (Hs : ~ In BACKTICK
                   (skipn (Z.to_nat (Py.len (a ++ d))) ((a ++ d) ++ body))).
    { unfold Py.len. rewrite Nat2Z.id, skipn_app, skipn_all, Nat.sub_diag.
      exact Hbody. }
    assert (Hq : 0 <= Py.len (a ++ d) <= Py.len ((a ++ d) ++ body))
      by (rewrite !len_app; lia).
    destruct Hd as [-> | ->];
      apply (index_after _ _ BACKTICK _ _ Hq Hs); reflexivity. }
  assert (E1 : Py.getitem line (Py.len a - 1) = Some DOLLAR).
  { unfold line, a. rewrite <- !app_assoc.
    replace (Py.len (pre ++ [DOLLAR]) - 1) with (Py.len pre + 0)
      by (rewrite len_app; unfold Py.len; simpl; lia).
    rewrite getitem_app_r by lia. apply getitem_0. }
  assert (E2 : Py.getitem line
                 (Py.len a + Py.len d + Py.len body + (Py.len d - 1) + 1)
               = None) by (apply getitem_past; lia).
  unfold iter_inline_katex. cbn [scan_line]. rewrite Ec.
  destruct (scan_before_settled line (Py.len a) (S (List.length line)) 0)
    as [before ->]; [lia | unfold Py.len; lia |].
  cbn [bind]. rewrite Ei, E1. cbv beta iota zeta.
  change (N.eqb DOLLAR DOLLAR) with true. cbv beta iota.
  now rewrite E2.
Qed.

Lemma dollar_code_span_at_end_raises_witness :
  iter_inline_katex (lit "cost: $" ++ [DOLLAR] ++ [BACKTICK; BACKTICK]
                         ++ lit "x^2" ++ [BACKTICK; BACKTICK])
  = Raised IndexError.
Proof.
  apply (dollar_code_span_at_end_raises (lit "cost: $") [BACKTICK; BACKTICK]
           (lit "x^2")).
  - now right.
  - reflexivity.
  - reflexivity.
  - discriminate.
Defined.

Lemma no_code_span_delim_from (line : str) (pos : Z) :
  0 <= pos ->
  ~ In BACKTICK (skipn (Z.to_nat pos) line) ->
  CODE_SPAN_DELIM_RE line pos = None.
Proof.
  intros Hp Hn. unfold CODE_SPAN_DELIM_RE.
  rewrite (search_literal_index [BACKTICK] _ pos) by (discriminate || lia).
  destruct (Py.index line [BACKTICK] pos) as [j|] eqn:E; [exfalso|reflexivity].
  apply index_Some in E as (Hj & Hs & _); [|exact Hp].
  apply startswith_single in Hs. apply Hn.
  apply (nth_error_In _ (Z.to_nat j - Z.to_nat pos)).
  rewrite nth_error_skipn.
  now replace (Z.to_nat pos + (Z.to_nat j - Z.to_nat pos))%nat
    with (Z.to_nat j) by lia.
Qed.

Lemma contains_false_index (tok l : str) (p : Z) :
  0 <= p -> Py.contains tok l = false -> Py.index l tok p = None.
Proof.
  intros Hp. unfold Py.contains.
  destruct (Py.find_at tok l 0) eqn:E; [discriminate|]. intros _.
  destruct (Py.index l tok p) as [j|] eqn:Ei; [|reflexivity].
  apply index_Some in Ei as (_ & Hs & _); [|exact Hp].
  now rewrite (find_at_None _ _ _ E) in Hs.
Qed.

(** The loop before a code span when no opening token is left. *)
Lemma scan_before_no_opening (fuel : nat) (line : str) (e p : Z) :
  0 <= p ->
  Py.index line INLINE_OPEN p = None ->
  scan_before (S fuel) line e p = Done [].
Proof.
  intros Hp H. cbn [scan_before]. unfold INLINE_MATH_START_DELIM_RE.
  rewrite (search_literal_index _ _ _ inline_open_not_nil Hp), H.
  now destruct (p <=? e).
Qed.

(** X8.  A line with one code span between dollars, delimited by one or
    two backticks, not empty, and with no other backtick and no inline
    opening token: the scanner returns one span, from the dollar before the
    code span to the dollar after it.  Its inner text is the text of the
    code span when the delimiter is one backtick; with two backticks it
    starts with a backtick.  The replacement puts the markup of that inner
    text between what is before the first dollar and what is after the
    second. *)
Theorem dollar_code_span_is_math (pre d body post : str) :
  d = [BACKTICK] \/ d = [BACKTICK; BACKTICK] ->
  Py.contains [BACKTICK] pre = false ->
  Py.contains [BACKTICK] body = false ->
  Py.contains [BACKTICK] post = false ->
  body <> [] ->
  Py.contains INLINE_OPEN
    (pre ++ [DOLLAR] ++ d ++ body ++ d ++ [DOLLAR] ++ post) = false ->
  let line := pre ++ [DOLLAR] ++ d ++ body ++ d ++ [DOLLAR] ++ post in
  let item :=
    mkItem (Py.len pre) (Py.len pre + 2 * Py.len d + Py.len body + 2)
           (tl d ++ body) in
  iter_inline_katex line = Done [item]
  /\ replace_spans line [item]
     = pre ++ _enclose_inline_math (tl d ++ body) ++ post.
Proof.
  intros Hd Hpre Hbody Hpost Hne Hopen line item.
  apply contains_single_In in Hpre, Hbody, Hpost.
  pose proof (len_nonneg pre) as Lp. pose proof (len_nonneg body) as Lb.
  pose proof (len_nonneg post) as Lq.
  assert (Ld : 1 <= Py.len d)
    by (destruct Hd as [-> | ->]; unfold Py.len; simpl; lia).
  set (a := pre ++ [DOLLAR]).
  assert (La : Py.len a = Py.len pre + 1) by (unfold a; now rewrite len_app).
  assert (Ha : ~ In BACKTICK (skipn (Z.to_nat 0) a)).
  { cbn [Z.to_nat skipn]. unfold a. rewrite in_app_iff.
    intros [H | [H | []]]; [contradiction | discriminate]. }
  set (r := DOLLAR :: post).
  assert (Hr : ~ In BACKTICK r)
    by (intros [H | H]; [discriminate | contradiction]).
  assert (El : line = a ++ d ++ body ++ d ++ r)
    by (unfold line, a, r; now rewrite <- app_assoc).
  assert (Ll : Py.len line
               = Py.len a + Py.len d + Py.len body + Py.len d + 1
                 + Py.len post).
  { rewrite El. unfold r. rewrite !len_app. unfold Py.len.
    simpl List.length. lia. }
  split.
  - assert (Ec : CODE_SPAN_DELIM_RE line 0
                 = Some (Py.len a, Py.len a + Py.len d, d)).
    { rewrite El. apply code_span_delim_at; [lia | exact Ha | exact Hd |].
      now apply no_backtick_head. }
    assert (Ei : Py.index line d (Py.len a + Py.len d)
                 = Some (Py.len a + Py.len d + Py.len body)).
    { rewrite El, !app_assoc, <- (app_assoc _ d r), <- !len_app.
      assert (Hs : ~ In BACKTICK
                     (skipn (Z.to_nat (Py.len (a ++ d))) ((a ++ d) ++ body))).
      { unfold Py.len. rewrite Nat2Z.id, skipn_app, skipn_all, Nat.sub_diag.
        exact Hbody. }
      assert (Hq : 0 <= Py.len (a ++ d) <= Py.len ((a ++ d) ++ body))
        by (rewrite !len_app; lia).
      destruct Hd as [-> | ->];
        apply (index_after _ _ BACKTICK _ _ Hq Hs); cbn [app Py.startswith];
        now rewrite !N.eqb_refl. }
    assert (E1 : Py.getitem line (Py.len a - 1) = Some DOLLAR).
    { unfold line.
      replace (Py.len a - 1) with (Py.len pre + 0) by lia.
      rewrite getitem_app_r by lia. apply getitem_0. }
    assert (E2 : Py.getitem line
                   (Py.len a + Py.len d + Py.len body + (Py.len d - 1) + 1)
                 = Some DOLLAR).
    { rewrite El, !app_assoc, <- !len_app.
      replace (Py.len (((a ++ d) ++ body)) + (Py.len d - 1) + 1)
        with (Py.len ((((a ++ d) ++ body) ++ d)) + 0)
        by (rewrite !len_app; lia).
      rewrite getitem_app_r by lia. apply getitem_0. }
    assert (En : forall p, 0 <= p -> Py.index line INLINE_OPEN p = None)
      by (intros p Hp; now apply contains_false_index).
    assert (Et : ~ In BACKTICK
                   (skipn (Z.to_nat (Py.len a + Py.len d + Py.len body
                                     + (Py.len d - 1) + Py.len d)) line)).
    { rewrite El, !app_assoc.
      replace (Z.to_nat (Py.len a + Py.len d + Py.len body
                         + (Py.len d - 1) + Py.len d))
        with (Z.to_nat (Py.len d - 1)
              + List.length (((a ++ d) ++ body) ++ d))%nat
        by (rewrite !length_app; unfold Py.len in *; lia).
      rewrite <- skipn_skipn, skipn_app, skipn_all, Nat.sub_diag.
      cbn [skipn app]. intros H. apply Hr.
      rewrite <- (firstn_skipn (Z.to_nat (Py.len d - 1)) r).
      apply in_or_app. now right. }
    assert (Sl : List.length line = S (pred (List.length line)))
      by (unfold Py.len in *; lia).
    unfold iter_inline_katex. cbn [scan_line]. rewrite Ec.
    rewrite (scan_before_no_opening _ _ _ 0) by (lia || apply En; lia).
    cbn [bind]. rewrite Ei, E1. cbv beta iota zeta.
    change (N.eqb DOLLAR DOLLAR) with true. cbv beta iota.
    rewrite E2. change (N.eqb DOLLAR DOLLAR) with true. cbv beta iota.
    rewrite Sl at 1. cbn [scan_line].
    rewrite no_code_span_delim_from by (lia || exact Et).
    rewrite scan_after_no_opening by (lia || apply En; lia).
    cbn [yield bind app]. unfold item. do 2 f_equal.
    f_equal; [lia | lia |].
    rewrite El.
    assert (Hda : forall t : str,
               a ++ d ++ t = (a ++ [BACKTICK]) ++ tl d ++ t)
      by (intros t; destruct Hd as [-> | ->]; now rewrite <- app_assoc).
    rewrite Hda, (app_assoc (tl d) body).
    replace (Py.len a + 1) with (Py.len (a ++ [BACKTICK]))
      by (now rewrite len_app).
    replace (Py.len a + Py.len d + Py.len body + (Py.len d - 1) - Py.len d + 1)
      with (Py.len (a ++ [BACKTICK]) + Py.len (tl d ++ body)).
    2:{ rewrite !len_app.
        destruct Hd as [-> | ->]; unfold Py.len; simpl List.length; lia. }
    apply slice_app_mid.
  - unfold replace_spans, item. cbn [rev app fold_left start end_ inline_math].
    unfold line at 1. rewrite slice_to_app. f_equal. f_equal.
    unfold line.
    replace (Py.len pre + 2 * Py.len d + Py.len body + 2)
      with (Py.len (pre ++ [DOLLAR] ++ d ++ body ++ d ++ [DOLLAR])).
    2:{ rewrite !len_app. unfold Py.len at 2 6. simpl List.length. lia. }
    rewrite <- (slice_from_app (pre ++ [DOLLAR] ++ d ++ body ++ d ++ [DOLLAR])
                  post) at 2.
    f_equal. now rewrite <- !app_assoc.
Qed.

Lemma dollar_code_span_is_math_witness :
  iter_inline_katex (lit "Euler: " ++ [DOLLAR] ++ [BACKTICK] ++ lit "e^x"
                         ++ [BACKTICK] ++ [DOLLAR] ++ lit ".")
  = Done [mkItem 7 14 (lit "e^x")]
  /\ replace_spans (lit "Euler: " ++ [DOLLAR] ++ [BACKTICK] ++ lit "e^x"
                        ++ [BACKTICK] ++ [DOLLAR] ++ lit ".")
       [mkItem 7 14 (lit "e^x")]
     = lit "Euler: " ++ _enclose_inline_math (lit "e^x") ++ lit ".".
Proof.
  apply (dollar_code_span_is_math (lit "Euler: ") [BACKTICK] (lit "e^x")
           (lit ".")).
  - now left.
  - reflexivity.
  - reflexivity.
  - reflexivity.
  - discriminate.
  - reflexivity.
Defined.

(** *** The escaper loses nothing *)

Lemma escape_head (c : char) (r : str) :
  exists t, escape_backslashes (c :: r) = c :: t.
Proof.
  cbn [escape_backslashes].
  destruct (N.eqb c BACKSLASH) eqn:E; [|now eexists].
  apply N.eqb_eq in E as ->.
  destruct r as [|d r]; [now eexists|].
  destruct (escapable d); now eexists.
Qed.

(** No escaped text starts with a match of the pattern. *)
Lemma escape_no_match_at_head (d : char) (x y : str) :
  escapable d = true ->
  escape_backslashes y <> BACKSLASH :: d :: x.
Proof.
  intros Hd H. destruct y as [|c r]; [discriminate|].
  destruct (N.eqb c BACKSLASH && starts_escapable r) eqn:E.
  - apply andb_true_iff in E as [Ec Er]. apply N.eqb_eq in Ec as ->.
    destruct r as [|e r]; [discriminate|]. cbn [starts_escapable] in Er.
    rewrite (escape_match _ _ Er) in H. injection H as <- _.
    apply escapable_not_backslash in Hd. now rewrite N.eqb_refl in Hd.
  - rewrite (escape_no_match _ _ E) in H. injection H as -> H.
    destruct r as [|e r]; [discriminate|].
    destruct (escape_head e r) as [t Ht]. rewrite Ht in H.
    injection H as -> _.
    cbn [starts_escapable] in E. now rewrite N.eqb_refl, Hd in E.
Qed.

Lemma escape_inj (a : str) :
  forall b, escape_backslashes a = escape_backslashes b -> a = b.
Proof.
  pattern a. apply escape_ind; clear a.
  - intros [|c b] H; [reflexivity|].
    destruct (escape_head c b) as [t Ht]. rewrite Ht in H. discriminate.
  - intros d rest Hd IH [|c b] H.
    + now rewrite (escape_match _ _ Hd) in H.
    + rewrite (escape_match _ _ Hd) in H.
      destruct (N.eqb c BACKSLASH && starts_escapable b) eqn:E.
      * apply andb_true_iff in E as [Ec Er]. apply N.eqb_eq in Ec as ->.
        destruct b as [|e b]; [discriminate|]. cbn [starts_escapable] in Er.
        rewrite (escape_match _ _ Er) in H. injection H as -> H.
        now rewrite (IH _ H).
      * rewrite (escape_no_match _ _ E) in H. injection H as <- H.
        symmetry in H. now apply escape_no_match_at_head in H.
  - intros c rest Hc IH [|c' b] H.
    + destruct (escape_head c rest) as [t Ht]. rewrite Ht in H. discriminate.
    + rewrite (escape_no_match _ _ Hc) in H.
      destruct (N.eqb c' BACKSLASH && starts_escapable b) eqn:E.
      * apply andb_true_iff in E as [Ec Er]. apply N.eqb_eq in Ec as ->.
        destruct b as [|e b]; [discriminate|]. cbn [starts_escapable] in Er.
        rewrite (escape_match _ _ Er) in H. injection H as -> H.
        now apply escape_no_match_at_head in H.
      * rewrite (escape_no_match _ _ E) in H. injection H as -> H.
        now rewrite (IH _ H).
Qed.

(** X14.  [escape_backslashes] is injective: two texts have the same
    escaped text exactly when they are equal, so the escaper loses nothing
    of the text it is given. *)
Theorem escape_backslashes_injective (a b : str) :
  escape_backslashes a = escape_backslashes b <-> a = b.
Proof.
  split; [apply escape_inj | now intros ->].
Qed.

(** *** Bracket math between two code spans *)

(** Nothing is found before a code span delimiter that starts at the
    cursor or right after it: an opening token found from the cursor ends
    after the start of the delimiter. *)
Lemma scan_before_close (fuel : nat) (line : str) (e p : Z) :
  0 <= p -> e <= p + 1 -> scan_before (S fuel) line e p = Done [].
Proof.
  intros Hp He. cbn [scan_before].
  destruct (p <=? e); [|reflexivity].
  unfold INLINE_MATH_START_DELIM_RE.
  rewrite (search_literal_index _ _ _ inline_open_not_nil Hp).
  destruct (Py.index line INLINE_OPEN p) as [m|] eqn:Em; [|reflexivity].
  apply index_Some in Em as (Hm & _ & _); [|exact Hp].
  change (Py.len INLINE_OPEN) with 2.
  destruct (m + 2 >? e) eqn:Eg; [reflexivity|].
  rewrite Z.gtb_ltb in Eg. apply Z.ltb_ge in Eg. lia.
Qed.

Lemma bind_nil_app {A} (r : outcome (list A)) :
  (rest <- r ;; Done ([] ++ rest)) = r.
Proof. now destruct r. Qed.

(** A code span that is closed, on a line without a dollar: the scanner
    goes on from the last character of the closing delimiter. *)
Lemma scan_line_skips_code_span (fuel : nat) (line d : str) (pos s e i : Z) :
  ~ In DOLLAR line ->
  0 <= pos -> s <= pos + 1 ->
  CODE_SPAN_DELIM_RE line pos = Some (s, e, d) ->
  Py.index line d (s + Py.len d) = Some i ->
  scan_line (S fuel) line pos = scan_line fuel line (i + (Py.len d - 1)).
Proof.
  intros Hn Hp Hs Ec Ei. cbn [scan_line]. rewrite Ec.
  rewrite scan_before_close by lia. cbn [bind]. rewrite Ei.
  apply code_span_delim_spec in Ec as (Hr & _); [|exact Hp].
  destruct (Py.getitem line (s - 1)) as [c|] eqn:Eg.
  2:{ exfalso. apply (getitem_before line s); [lia | exact Eg]. }
  destruct (N.eqb c DOLLAR) eqn:D.
  { apply N.eqb_eq in D as ->. apply getitem_In in Eg. contradiction. }
  apply bind_nil_app.
Qed.

(** A code span delimiter with no closing one after it: the scanner goes
    on after the delimiter. *)
Lemma scan_line_unclosed_code_span (fuel : nat) (line d : str)
  (pos s e : Z) :
  0 <= pos -> s <= pos + 1 ->
  CODE_SPAN_DELIM_RE line pos = Some (s, e, d) ->
  Py.index line d (s + Py.len d) = None ->
  scan_line (S fuel) line pos = scan_line fuel line (s + Py.len d).
Proof.
  intros Hp Hs Ec Ei. cbn [scan_line]. rewrite Ec.
  rewrite scan_before_close by lia. cbn [bind]. rewrite Ei.
  apply bind_nil_app.
Qed.

Lemma index_at_end (tok l : str) :
  tok <> [] -> Py.index l tok (Py.len l) = None.
Proof.
  intros Ht. pose proof (len_nonneg l).
  destruct (Py.index l tok (Py.len l)) as [j|] eqn:E; [|reflexivity].
  apply index_Some in E as (Hj & Hs & _); [|lia].
  rewrite skipn_all2 in Hs by (unfold Py.len in *; lia).
  now rewrite (startswith_nil _ Ht) in Hs.
Qed.

(** X15.  After a code span that is not between dollars the scanner goes
    on from the closing backtick, which it then takes for the opening of
    a code span.  So on a line with two code spans the text between them
    is read as a code span too, and bracket math in it is not reported. *)
Theorem math_between_code_spans_lost (a mid b : str) :
  a <> [] -> mid <> [] -> b <> [] ->
  Py.contains [BACKTICK] a = false ->
  Py.contains [BACKTICK] mid = false ->
  Py.contains [BACKTICK] b = false ->
  Py.contains [DOLLAR] a = false ->
  Py.contains [DOLLAR] mid = false ->
  Py.contains [DOLLAR] b = false ->
  iter_inline_katex
    ([BACKTICK] ++ a ++ [BACKTICK] ++ mid ++ [BACKTICK] ++ b ++ [BACKTICK])
  = Done [].
Proof.
  intros Na Nm Nb Ba Bm Bb Da Dm Db.
  apply contains_single_In in Ba, Bm, Bb, Da, Dm, Db.
  pose proof (len_nonneg a) as La. pose proof (len_nonneg mid) as Lm.
  pose proof (len_nonneg b) as Lb.
  set (p1 := [BACKTICK] ++ a).
  set (p2 := p1 ++ [BACKTICK] ++ mid).
  set (p3 := p2 ++ [BACKTICK] ++ b).
  set (line := [BACKTICK] ++ a ++ [BACKTICK] ++ mid ++ [BACKTICK] ++ b
                 ++ [BACKTICK]).
  assert (E1 : line = p1 ++ [BACKTICK] ++ mid ++ [BACKTICK] ++ b
                        ++ [BACKTICK])
    by (unfold line, p1; now rewrite <- !app_assoc).
  assert (E2 : line = p2 ++ [BACKTICK] ++ b ++ [BACKTICK])
    by (rewrite E1; unfold p2; now rewrite <- !app_assoc).
  assert (E3 : line = p3 ++ [BACKTICK] ++ [])
    by (rewrite E2; unfold p3; now rewrite <- !app_assoc).
  assert (L1 : Py.len p1 = 1 + Py.len a)
    by (unfold p1; now rewrite len_app).
  assert (L2 : Py.len p2 = Py.len p1 + 1 + Py.len mid)
    by (unfold p2; rewrite !len_app; change (Py.len [BACKTICK]) with 1; lia).
  assert (L3 : Py.len p3 = Py.len p2 + 1 + Py.len b)
    by (unfold p3; rewrite !len_app; change (Py.len [BACKTICK]) with 1; lia).
  assert (Ll : Py.len line = Py.len p3 + 1).
  { rewrite E3, !len_app. unfold Py.len at 2 3. simpl List.length. lia. }
  assert (Hd : ~ In DOLLAR line).
  { unfold line. rewrite !in_app_iff. cbn [In].
    intros H. decompose [or] H; (contradiction || discriminate). }
  assert (Hend : forall x : str,
             ~ In BACKTICK (skipn (Z.to_nat (Py.len x)) x)).
  { intros x. unfold Py.len. now rewrite Nat2Z.id, skipn_all. }
  assert (Hone : [BACKTICK] = [BACKTICK] \/ [BACKTICK] = [BACKTICK; BACKTICK])
    by now left.
  (* the four delimiters *)
  assert (C0 : CODE_SPAN_DELIM_RE line 0 = Some (0, 0 + 1, [BACKTICK])).
  { apply (code_span_delim_at [] [BACKTICK]
             (a ++ [BACKTICK] ++ mid ++ [BACKTICK] ++ b ++ [BACKTICK]) 0);
      [cbn; lia | intros [] | exact Hone | now apply no_backtick_head]. }
  assert (C1 : CODE_SPAN_DELIM_RE line (Py.len p1)
               = Some (Py.len p1, Py.len p1 + 1, [BACKTICK])).
  { rewrite E1. apply code_span_delim_at;
      [lia | apply Hend | exact Hone | now apply no_backtick_head]. }
  assert (C2 : CODE_SPAN_DELIM_RE line (Py.len p2)
               = Some (Py.len p2, Py.len p2 + 1, [BACKTICK])).
  { rewrite E2. apply code_span_delim_at;
      [lia | apply Hend | exact Hone | now apply no_backtick_head]. }
  assert (C3 : CODE_SPAN_DELIM_RE line (Py.len p3)
               = Some (Py.len p3, Py.len p3 + 1, [BACKTICK])).
  { rewrite E3. apply code_span_delim_at;
      [lia | apply Hend | exact Hone | reflexivity]. }
  (* the closing backtick of each *)
  assert (Hskip : forall (p x : str),
             ~ In BACKTICK x ->
             ~ In BACKTICK
                 (skipn (Z.to_nat (Py.len p + 1)) (p ++ [BACKTICK] ++ x))).
  { intros p x Hx. rewrite app_assoc.
    replace (Z.to_nat (Py.len p + 1)) with (List.length (p ++ [BACKTICK]))
      by (rewrite length_app; unfold Py.len; simpl List.length; lia).
    now rewrite skipn_app, skipn_all, Nat.sub_diag. }
  assert (I0 : Py.index line [BACKTICK] (0 + 1)
               = Some (Py.len p1)).
  { rewrite E1. apply index_after;
      [lia | | apply (startswith_app [BACKTICK])].
    apply (Hskip [] a Ba). }
  assert (I1 : Py.index line [BACKTICK] (Py.len p1 + 1)
               = Some (Py.len p2)).
  { rewrite E2. apply index_after;
      [lia | | apply (startswith_app [BACKTICK])].
    apply (Hskip p1 mid Bm). }
  assert (I2 : Py.index line [BACKTICK] (Py.len p2 + 1)
               = Some (Py.len p3)).
  { rewrite E3. apply index_after;
      [lia | | apply (startswith_app [BACKTICK])].
    apply (Hskip p2 b Bb). }
  assert (I3 : Py.index line [BACKTICK] (Py.len p3 + 1)
               = None).
  { rewrite <- Ll. now apply index_at_end. }
  assert (Sl : exists n, List.length line = S (S (S (S n)))).
  { exists (List.length line - 4)%nat. unfold Py.len in *. lia. }
  destruct Sl as [n Sl].
  unfold iter_inline_katex. rewrite Sl at 1.
  rewrite (scan_line_skips_code_span _ _ _ _ _ _ _ Hd (Z.le_refl 0)
             (Z.le_succ_diag_r 0) C0 I0).
  change (Py.len [BACKTICK] - 1) with 0. rewrite Z.add_0_r.
  assert (P1 : 0 <= Py.len p1) by apply len_nonneg.
  assert (P2 : 0 <= Py.len p2) by apply len_nonneg.
  assert (P3 : 0 <= Py.len p3) by apply len_nonneg.
  rewrite (scan_line_skips_code_span _ _ _ _ _ _ _ Hd P1
             (Z.le_succ_diag_r _) C1 I1), Z.add_0_r.
  rewrite (scan_line_skips_code_span _ _ _ _ _ _ _ Hd P2
             (Z.le_succ_diag_r _) C2 I2), Z.add_0_r.
  rewrite (scan_line_unclosed_code_span _ _ _ _ _ _ P3
             (Z.le_succ_diag_r _) C3 I3).
  change (Py.len [BACKTICK]) with 1. rewrite <- Ll.
  cbn [scan_line].
  rewrite no_code_span_delim_from by (lia || apply Hend).
  apply scan_after_no_opening; [lia|].
  apply index_at_end. discriminate.
Qed.

Lemma math_between_code_spans_lost_witness :
  iter_inline_katex
    ([BACKTICK] ++ lit "a" ++ [BACKTICK] ++ lit " and \(x+y\) and "
       ++ [BACKTICK] ++ lit "b" ++ [BACKTICK])
  = Done [].
Proof.
  apply (math_between_code_spans_lost (lit "a") (lit " and \(x+y\) and ")
           (lit "b")); (discriminate || reflexivity).
Defined.

(** *** Blocks and openings that are not closed *)

(** X16.  In a document whose lines [pre] leave no block open, (1) a block
    opened by the line [o] (plain fence, math fence or bracket block) that
    no line of [rest] closes is returned line for line as it was read,
    with no markup; (2) on a line with no backtick whose inline openings
    have no closing token after them the scanner reports no span and
    raises nothing, and the line is returned as it is; (3) on any line, a
    reported span that starts at an opening token ends after a closing
    token found after that opening: an opening without one is never
    reported as the start of a span. *)
Theorem unterminated_passthrough
  (pre out : list str) (st : state) (o : str) (rest : list str) (line : str) :
  iter_loop initial_state pre = Done (out, st) ->
  normal st ->
  stays_open o rest = true ->
  Py.contains [BACKTICK] line = false ->
  unterminated line = true ->
  CODE_FENCE_RE line = None ->
  Py.startswith line BLOCK_OPEN = false ->
  run (pre ++ o :: rest) = Done (out ++ o :: rest)
  /\ iter_inline_katex line = Done []
  /\ run (pre ++ [line]) = Done (out ++ [line])
  /\ (forall l items it,
         iter_inline_katex l = Done items ->
         In it items ->
         0 <= start it ->
         Py.startswith (skipn (Z.to_nat (start it)) l) (lit "\(") = true ->
         Py.index l (lit "\)") (start it + 2) = Some (end_ it - 2)).
Proof.
  intros Hpre Hn Hopen Hb Hu Hf Ho.
  pose proof (reachable_ready _ _ _ Hpre Hn) as Hr.
  split; [|split; [|split]].
  - rewrite (run_app _ _ _ _ Hpre), (unclosed_block_verbatim _ _ _ Hr Hopen).
    reflexivity.
  - exact (scanner_abandons_unterminated _ Hb Hu).
  - rewrite (run_app _ _ _ _ Hpre). unfold iter_lines_from.
    cbn [iter_loop]. rewrite (step_unterminated _ _ Hn Hb Hu Hf Ho).
    cbn [bind fst snd app]. destruct Hr as (_ & -> & _).
    reflexivity.
  - exact reported_opening_is_closed.
Qed.

Lemma unterminated_passthrough_witness :
  run ([lit "text"] ++ [lit "```math"; lit "x+1=2"; lit "``"]) =
  Done ([lit "text"] ++ [lit "```math"; lit "x+1=2"; lit "``"])
  /\ run ([lit "text"] ++ [lit "a \) b \(no close"]) =
     Done ([lit "text"] ++ [lit "a \) b \(no close"]).
Proof.
  destruct (unterminated_passthrough
              [lit "text"] [lit "text"] initial_state
              (lit "```math") [lit "x+1=2"; lit "``"]
              (lit "a \) b \(no close"))
    as (H1 & _ & H3 & _); try reflexivity.
  - repeat split.
  - split; assumption.
Defined.
